(** * EV adoption forecasting: the autoregressive feature/forecast engine

    A shallow embedding of the forecasting part of [prototype_code.py]:
    the rolling buffers [historical_ev] and [cumulative_ev], the feature
    derivation (lags, rolling mean, percent changes, growth slope), the
    single-county forecast loop (lines 300-399) and the per-county batch
    loop (lines 417-559).

    Numbers.  The EV counts, the predictions and every derived feature
    are modelled as exact rationals [Q]; statements about them use the
    rational equality [==].  [months_since_start], the county code and
    the calendar arithmetic are integers [Z].

    Exceptions.  A Python expression that can raise is a computation in
    the [result] monad below. *)

From Stdlib Require Import String ZArith QArith Qfield Lia Lqa Bool List.
From Stdlib Require Import Sorted Permutation.
Import ListNotations.

Open Scope Q_scope.

(** ** Exceptions and the result monad *)

Inductive exn : Type :=
| IndexError          (* list index out of range *)
| ZeroDivisionError   (* division by zero *)
| ValueError          (* LabelEncoder.transform on an unseen label *)
| PredictError.       (* anything raised inside model.predict *)

Inductive result (A : Type) : Type :=
| Ok (a : A)
| Raise (e : exn).

Arguments Ok {A} a.
Arguments Raise {A} e.

Definition bind {A B : Type} (m : result A) (k : A -> result B) : result B :=
  match m with
  | Ok a => k a
  | Raise e => Raise e
  end.

Notation "x <- m ;; k" := (bind m (fun x => k))
  (at level 61, m at next level, right associativity).

(** ** Python and numpy list primitives *)

Module Py.

(** [l[-n:]]: the last [n] elements, the whole list when it is shorter. *)
Definition last_n {A : Type} (n : nat) (l : list A) : list A :=
  skipn (length l - n) l.

(** [l[-k]] for [k >= 1]; raises [IndexError] when [len(l) < k]. *)
Definition neg_index (l : list Q) (k : nat) : result Q :=
  match k with
  | O => Raise IndexError
  | S k' =>
      match nth_error (rev l) k' with
      | Some x => Ok x
      | None => Raise IndexError
      end
  end.

(** [l.pop(0)] on a non-empty list; the popped value is dropped. *)
Definition pop0 {A : Type} (l : list A) : list A := tl l.

(** [np.cumsum]: running sums, left to right. *)
Fixpoint cumsum_from (acc : Q) (l : list Q) : list Q :=
  match l with
  | [] => []
  | x :: t => (acc + x) :: cumsum_from (acc + x) t
  end.

Definition cumsum (l : list Q) : list Q := cumsum_from 0 l.

Definition sum (l : list Q) : Q := fold_left Qplus l 0.

(** [np.mean]. *)
Definition mean (l : list Q) : Q := sum l / inject_Z (Z.of_nat (length l)).

(** [range(n)] as rationals. *)
Definition range (n : nat) : list Q :=
  map (fun i => inject_Z (Z.of_nat i)) (seq 0 n).

(** A guarded division: Python raises on a zero divisor. *)
Definition div (a b : Q) : result Q :=
  if Qeq_bool b 0 then Raise ZeroDivisionError else Ok (a / b).

(** [np.polyfit(x, y, 1)[0]]: the slope of the degree-1 least-squares
    fit, as the solution of the normal equations
    [(n*Sxy - Sx*Sy) / (n*Sxx - Sx^2)]. *)
Definition polyfit_slope (xs ys : list Q) : Q :=
  let n := inject_Z (Z.of_nat (length xs)) in
  let sx := sum xs in
  let sy := sum ys in
  let sxy := sum (map (fun p => fst p * snd p) (combine xs ys)) in
  let sxx := sum (map (fun x => x * x) xs) in
  (n * sxy - sx * sy) / (n * sxx - sx * sx).

End Py.

(** ** The rolling buffers (lines 307-308, 354-360) *)

Record Window : Type := mkWindow {
  historical_ev : list Q;   (* trailing EV counts, oldest first *)
  cumulative_ev : list Q    (* trailing cumulative sums, oldest first *)
}.

(** Lines 307-308 (and 433-434):
    [historical_ev = list(values[-6:])],
    [cumulative_ev = list(np.cumsum(historical_ev))]. *)
Definition init_window (values : list Q) : Window :=
  let h := Py.last_n 6 values in
  {| historical_ev := h; cumulative_ev := Py.cumsum h |}.

(** Lines 355-356 and 359-360: [if len(l) > 6: l.pop(0)]. *)
Definition evict (l : list Q) : list Q :=
  if (6 <? length l)%nat then Py.pop0 l else l.

(** Lines 354-360: append the prediction to both buffers, evicting the
    oldest element when a buffer grows beyond 6. *)
Definition push (w : Window) (pred : Q) : result Window :=
  let h := evict (historical_ev w ++ [pred]) in
  last_c <- Py.neg_index (cumulative_ev w) 1 ;;
  let c := evict (cumulative_ev w ++ [last_c + pred]) in
  Ok {| historical_ev := h; cumulative_ev := c |}.

(** ** The feature vector (lines 171-181, 326-346) *)

Record FeatureVector : Type := mkFeatures {
  f_months_since_start : Z;
  f_county_encoded : Z;
  ev_total_lag1 : Q;
  ev_total_lag2 : Q;
  ev_total_lag3 : Q;
  ev_total_roll_mean_3 : Q;
  ev_total_pct_change_1 : Q;
  ev_total_pct_change_3 : Q;
  ev_growth_slope : Q
}.

(** Lines 328-329: [(lag1 - lagk) / lagk if lagk != 0 else 0]. *)
Definition pct_change (lag1 lagk : Q) : result Q :=
  if negb (Qeq_bool lagk 0) then Py.div (lag1 - lagk) lagk else Ok 0.

(** Lines 332-333. *)
Definition growth_slope (cumulative : list Q) : Q :=
  let recent_cumulative := Py.last_n 6 cumulative in
  if (length recent_cumulative =? 6)%nat
  then Py.polyfit_slope (Py.range (length recent_cumulative)) recent_cumulative
  else 0.

(** Lines 326-346: the row handed to the model. *)
Definition derive (w : Window) (months_since_start county_code : Z)
  : result FeatureVector :=
  lag1 <- Py.neg_index (historical_ev w) 1 ;;
  lag2 <- Py.neg_index (historical_ev w) 2 ;;
  lag3 <- Py.neg_index (historical_ev w) 3 ;;
  let roll_mean := Py.mean [lag1; lag2; lag3] in
  pct_change_1 <- pct_change lag1 lag2 ;;
  pct_change_3 <- pct_change lag1 lag3 ;;
  let slope := growth_slope (cumulative_ev w) in
  Ok {| f_months_since_start := months_since_start;
        f_county_encoded := county_code;
        ev_total_lag1 := lag1;
        ev_total_lag2 := lag2;
        ev_total_lag3 := lag3;
        ev_total_roll_mean_3 := roll_mean;
        ev_total_pct_change_1 := pct_change_1;
        ev_total_pct_change_3 := pct_change_3;
        ev_growth_slope := slope |}.

(** ** The training-time growth slope (lines 155-161) *)

(** [x.rolling(n)]: the window ending at row [i], missing until [n] rows
    are available. *)
Definition rolling (n : nat) (x : list Q) (i : nat) : option (list Q) :=
  if (i + 1 <? n)%nat then None
  else Some (firstn n (skipn (i + 1 - n) x)).

(** Row [i] of the column [ev_growth_slope] of one county, from the
    county's column of EV totals; [None] is NaN. *)
Definition training_growth_slope (ev_total : list Q) (i : nat) : option Q :=
  let cumulative_ev := Py.cumsum ev_total in
  match rolling 6 cumulative_ev i with
  | None => None
  | Some y =>
      if (length y =? 6)%nat
      then Some (Py.polyfit_slope (Py.range (length y)) y)
      else None
  end.

(** ** Calendar dates

    A pandas [Timestamp] at day granularity is kept as the number of
    months elapsed since January of year 0 together with the day of the
    month, so [year] and [month] are the usual calendar fields with
    [1 <= month <= 12]. *)

Record Timestamp : Type := mkTimestamp {
  month_count : Z;
  day : Z
}.

Definition year (d : Timestamp) : Z := (month_count d / 12)%Z.
Definition month (d : Timestamp) : Z := (month_count d mod 12 + 1)%Z.

(** [pd.to_datetime] of a (year, month, day) triple. *)
Definition to_datetime (y m d : Z) : Timestamp :=
  {| month_count := (y * 12 + (m - 1))%Z; day := d |}.

Definition is_leap_year (y : Z) : bool :=
  ((y mod 4 =? 0) && (negb (y mod 100 =? 0) || (y mod 400 =? 0)))%Z.

Definition days_in_month (y m : Z) : Z :=
  if (m =? 2)%Z then (if is_leap_year y then 29 else 28)%Z
  else if ((m =? 4) || (m =? 6) || (m =? 9) || (m =? 11))%Z then 30%Z
  else 31%Z.

(** [d + pd.DateOffset(months=k)]: the month moves by [k]; the day is
    kept, clipped to the length of the target month. *)
Definition DateOffset_months (d : Timestamp) (k : Z) : Timestamp :=
  let mc := (month_count d + k)%Z in
  {| month_count := mc;
     day := Z.min (day d) (days_in_month (mc / 12) (mc mod 12 + 1)) |}.

(** Chronological order of timestamps. *)
Definition date_leb (a b : Timestamp) : bool :=
  ((month_count a <? month_count b)
   || ((month_count a =? month_count b) && (day a <=? day b)))%Z.

Definition date_max (a b : Timestamp) : Timestamp :=
  if date_leb a b then b else a.

(** ** Data frames *)

(** A row of [df] after the preprocessing of lines 44-133. *)
Record DfRow : Type := mkDfRow {
  County : string;
  Date : Timestamp;
  EV_Total : Q;                 (* 'Electric Vehicle (EV) Total' *)
  county_encoded : Z;
  months_since_start : Z
}.

(** Line 123: [numeric_date = year * 12 + month]. *)
Definition numeric_date (r : DfRow) : Z :=
  (year (Date r) * 12 + month (Date r))%Z.

Inductive Source : Type := Historical | Forecast.

(** A row of [historical], [forecast_df] and [combined]. The
    single-county frames have no 'County' column. *)
Record Row : Type := mkRow {
  r_Date : Timestamp;
  r_EV_Total : Q;
  r_months_since_start : Z;
  r_County : option string;
  r_Source : Source
}.

(** A row of [combined] once the 'Cumulative EVs' column is added. *)
Record CRow : Type := mkCRow {
  c_row : Row;
  Cumulative_EVs : Q
}.

Module Pd.

(** [sort_values]: rows in ascending order of the key. Rows with equal
    keys are left in their original order here; pandas does not promise
    an order for them, and no statement below depends on it. *)
Fixpoint insert_sorted {A : Type} (leb : A -> A -> bool) (x : A)
    (l : list A) : list A :=
  match l with
  | [] => [x]
  | y :: t => if leb y x then y :: insert_sorted leb x t else x :: y :: t
  end.

Definition sort_values {A : Type} (leb : A -> A -> bool) (l : list A)
  : list A :=
  fold_left (fun acc x => insert_sorted leb x acc) l [].

(** [Series.max()] of an integer column; [None] on an empty column. *)
Definition max_Z (l : list Z) : option Z :=
  match l with
  | [] => None
  | x :: t => Some (fold_left Z.max t x)
  end.

Definition max_date (l : list Timestamp) : option Timestamp :=
  match l with
  | [] => None
  | x :: t => Some (fold_left date_max t x)
  end.

(** [Series.unique()]: distinct values in order of first appearance. *)
Fixpoint unique (l : list string) : list string :=
  match l with
  | [] => []
  | x :: t => x :: filter (fun y => negb (String.eqb x y)) (unique t)
  end.

(** The 'Cumulative EVs' column: [cumsum] of the value column. *)
Definition with_cumsum (rows : list Row) : list CRow :=
  map (fun p => {| c_row := fst p; Cumulative_EVs := snd p |})
      (combine rows (Py.cumsum (map r_EV_Total rows))).

End Pd.

(** Lines 301 and 426:
    [df[df['county_encoded'] == county_code].sort_values("numeric_date")]. *)
Definition county_frame (df : list DfRow) (county_code : Z) : list DfRow :=
  Pd.sort_values (fun a b => (numeric_date a <=? numeric_date b)%Z)
    (filter (fun r => (county_encoded r =? county_code)%Z) df).

(** Lines 377-399 and 477-479: concatenate, sort by 'Date', add the
    running total. *)
Definition assemble (historical forecast_df : list Row) : list CRow :=
  let combined := historical ++ forecast_df in
  let combined :=
    Pd.sort_values (fun a b => date_leb (r_Date a) (r_Date b)) combined in
  Pd.with_cumsum combined.

(** ** The forecast loops *)

Definition forecast_horizon : nat := 36.

(** [n] iterations of a loop body that can raise. *)
Fixpoint iterate {S : Type} (body : S -> result S) (n : nat) (s : S)
  : result S :=
  match n with
  | O => Ok s
  | S n' => s' <- body s ;; iterate body n' s'
  end.

Section Engine.

(** The fitted [LabelEncoder] and the fitted regression model. *)
Variable le_transform : string -> result Z.
Variable model_predict : FeatureVector -> result Q.

(** *** Single county (lines 289-399) *)

Record SingleState : Type := mkSingleState {
  s_window : Window;
  s_months_since_start : Z;
  s_latest_row : Z * Z;          (* latest_row['year'], latest_row['month'] *)
  s_future_rows : list Row
}.

(** Lines 320-369, one iteration. *)
Definition single_step (county_code : Z) (st : SingleState)
  : result SingleState :=
  let '(ly, lm) := s_latest_row st in
  let next_date := DateOffset_months (to_datetime ly lm 1) 1 in
  let y := year next_date in
  let m := month next_date in
  let months_since_start := (s_months_since_start st + 1)%Z in
  new_row <- derive (s_window st) months_since_start county_code ;;
  pred <- model_predict new_row ;;
  w <- push (s_window st) pred ;;
  Ok {| s_window := w;
        s_months_since_start := months_since_start;
        s_latest_row := (y, m);
        s_future_rows :=
          s_future_rows st ++
          [ {| r_Date := next_date;
               r_EV_Total := pred;
               r_months_since_start := months_since_start;
               r_County := None;
               r_Source := Forecast |} ] |}.

(** Lines 306-318: the state on entry to the loop. The frame is not
    empty here. *)
Definition single_init (county_df : list DfRow) : result SingleState :=
  match Pd.max_Z (map months_since_start county_df),
        nth_error (rev county_df) 0 with
  | Some mss, Some latest_row =>
      Ok {| s_window := init_window (map EV_Total county_df);
            s_months_since_start := mss;
            s_latest_row := (year (Date latest_row), month (Date latest_row));
            s_future_rows := [] |}
  | _, _ => Raise IndexError
  end.

(** Lines 312-314: the historical frame of the single-county script. *)
Definition single_historical (county_df : list DfRow) : list Row :=
  map (fun r => {| r_Date := to_datetime (year (Date r)) (month (Date r)) 1;
                   r_EV_Total := EV_Total r;
                   r_months_since_start := months_since_start r;
                   r_County := None;
                   r_Source := Historical |}) county_df.

(** Lines 306-369 for a non-empty frame: the state after [horizon]
    iterations. *)
Definition single_loop (horizon : nat) (county_code : Z)
    (county_df : list DfRow) : result SingleState :=
  st <- single_init county_df ;;
  iterate (single_step county_code) horizon st.

Inductive script_outcome (A : Type) : Type :=
| Exit                    (* exit() was called *)
| Finished (a : A)
| Uncaught (e : exn).

Arguments Exit {A}.
Arguments Finished {A} a.
Arguments Uncaught {A} e.

(** Lines 289-399: the whole single-county section. *)
Definition single_script (horizon : nat) (county : string)
    (df : list DfRow) : script_outcome (SingleState * list CRow) :=
  match le_transform county with
  | Raise ValueError => Exit
  | Raise e => Uncaught e
  | Ok county_code =>
      let county_df := county_frame df county_code in
      match county_df with
      | [] => Exit
      | _ =>
          match single_loop horizon county_code county_df with
          | Raise e => Uncaught e
          | Ok st =>
              Finished
                (st, assemble (single_historical county_df) (s_future_rows st))
          end
      end
  end.

(** *** Batch over counties (lines 417-559) *)

Record BatchState : Type := mkBatchState {
  b_window : Window;
  b_months_since_start : Z;
  b_slope_history : list Q;
  b_future_rows : list Row
}.

(** Lines 437-475 (and 502-552), one iteration. [max_date] is
    [historical['Date'].max()]. *)
Definition batch_step (county : string) (county_code : Z)
    (max_date : Timestamp) (st : BatchState) : result BatchState :=
  let months_since_start := (b_months_since_start st + 1)%Z in
  new_row <- derive (b_window st) months_since_start county_code ;;
  let slope_history := b_slope_history st ++ [ev_growth_slope new_row] in
  let slope_history :=
    if (2 <? length slope_history)%nat then Py.pop0 slope_history
    else slope_history in
  pred <- model_predict new_row ;;
  let forecast_date :=
    DateOffset_months max_date
      (Z.of_nat (length (b_future_rows st)) + 1) in
  let future_rows :=
    b_future_rows st ++
    [ {| r_Date := forecast_date;
         r_EV_Total := pred;
         r_months_since_start := months_since_start;
         r_County := Some county;
         r_Source := Forecast |} ] in
  w <- push (b_window st) pred ;;
  Ok {| b_window := w;
        b_months_since_start := months_since_start;
        b_slope_history := slope_history;
        b_future_rows := future_rows |}.

(** Lines 430-432: the historical frame of the batch loop. *)
Definition batch_historical (county : string) (county_df : list DfRow)
  : list Row :=
  map (fun r => {| r_Date := Date r;
                   r_EV_Total := EV_Total r;
                   r_months_since_start := months_since_start r;
                   r_County := Some county;
                   r_Source := Historical |}) county_df.

(** Lines 426-480 (and 485-559): the work for one county. [None] is
    the [continue] of the guard on line 427 (486). *)
Definition county_forecast (horizon : nat) (df : list DfRow)
    (county : string) (county_code : Z) : result (option (list CRow)) :=
  let county_df := county_frame df county_code in
  if (length county_df <? 6)%nat then Ok None
  else
    match Pd.max_Z (map months_since_start county_df),
          Pd.max_date (map Date county_df) with
    | Some mss, Some max_date =>
        let historical := batch_historical county county_df in
        st <- iterate (batch_step county county_code max_date) horizon
                {| b_window := init_window (map EV_Total county_df);
                   b_months_since_start := mss;
                   b_slope_history := [];
                   b_future_rows := [] |} ;;
        Ok (Some (assemble historical (b_future_rows st)))
    | _, _ => Raise IndexError
    end.

(** One iteration of the loop of line 423: the guarded copy inside
    [try]/[except] (lines 424-483), then the unguarded copy of the
    same work (lines 485-559). *)
Definition batch_iteration (horizon : nat) (df : list DfRow)
    (all_combined : list (list CRow)) (county : string)
  : result (list (list CRow)) :=
  match (county_code <- le_transform county ;;
         r <- county_forecast horizon df county county_code ;;
         Ok (county_code, r)) with
  | Raise _ => Ok all_combined                     (* except: continue *)
  | Ok (_, None) => Ok all_combined                (* continue *)
  | Ok (county_code, Some combined) =>
      let all_combined := all_combined ++ [combined] in
      r <- county_forecast horizon df county county_code ;;
      match r with
      | None => Ok all_combined                    (* continue *)
      | Some combined => Ok (all_combined ++ [combined])
      end
  end.

Fixpoint batch_loop (horizon : nat) (df : list DfRow)
    (all_combined : list (list CRow)) (counties : list string)
  : result (list (list CRow)) :=
  match counties with
  | [] => Ok all_combined
  | county :: rest =>
      all_combined <- batch_iteration horizon df all_combined county ;;
      batch_loop horizon df all_combined rest
  end.

(** Lines 419-559: [all_combined] after the loop. *)
Definition run_batch (horizon : nat) (df : list DfRow)
    (unique_counties : list string) : result (list (list CRow)) :=
  batch_loop horizon df [] unique_counties.

(** Line 420. *)
Definition unique_counties (df : list DfRow) : list string :=
  firstn 5 (Pd.unique (map County df)).

End Engine.

Arguments Exit {A}.
Arguments Finished {A} a.
Arguments Uncaught {A} e.

(** * Preprocessing and feature engineering (lines 29-165) *)

(** ** Outlier capping (lines 29-70) *)

Module Outliers.

(** Lines 32-36, from the two quartiles. *)
Definition lower_bound (Q1 Q3 : Q) : Q := Q1 - (3#2) * (Q3 - Q1).
Definition upper_bound (Q1 Q3 : Q) : Q := Q3 + (3#2) * (Q3 - Q1).

(** Lines 41 and 69: [(x < lower_bound) | (x > upper_bound)]. *)
Definition is_outlier (lower upper x : Q) : bool :=
  negb (Qle_bool lower x) || negb (Qle_bool x upper).

(** Lines 65-66:
    [np.where(x > upper, upper, np.where(x < lower, lower, x))]. *)
Definition cap (lower upper x : Q) : Q :=
  if negb (Qle_bool x upper) then upper
  else if negb (Qle_bool lower x) then lower
  else x.

(** Lines 42 and 70: [outliers.shape[0]]. *)
Definition count_outliers (lower upper : Q) (column : list Q) : nat :=
  length (filter (is_outlier lower upper) column).

End Outliers.

(** ** The label encoder (lines 125-127, 294, 425) *)

Module LabelEncoder.

(** [fit]: [classes_] holds the distinct labels in ascending order. *)
Definition fit (y : list string) : list string :=
  Pd.sort_values String.leb (Pd.unique y).

Fixpoint index_of (c : string) (classes : list string) : option nat :=
  match classes with
  | [] => None
  | x :: t => if String.eqb x c then Some O else option_map S (index_of c t)
  end.

(** [transform([c])[0]]: the position of [c] in [classes_]; a label that
    was not seen by [fit] raises [ValueError]. *)
Definition transform (classes : list string) (c : string) : result Z :=
  match index_of c classes with
  | Some i => Ok (Z.of_nat i)
  | None => Raise ValueError
  end.

Fixpoint transform_all (classes : list string) (y : list string)
  : result (list Z) :=
  match y with
  | [] => Ok []
  | c :: t =>
      code <- transform classes c ;;
      codes <- transform_all classes t ;;
      Ok (code :: codes)
  end.

(** Line 127: [le.fit_transform(df['County'])]. *)
Definition fit_transform (y : list string) : result (list Z) :=
  transform_all (fit y) y.

End LabelEncoder.

(** ** The per-county time index (line 133) *)

(** [groupby('County').cumcount()]: for each row, the number of earlier
    rows of the same group. *)
Fixpoint cumcount_from (seen keys : list string) : list Z :=
  match keys with
  | [] => []
  | k :: t =>
      Z.of_nat (count_occ string_dec seen k) :: cumcount_from (k :: seen) t
  end.

Definition cumcount (keys : list string) : list Z := cumcount_from [] keys.

(** ** Training features of one county (lines 135-165)

    The columns are those of one county in date order; a missing value
    (NaN) is [None]. *)

Module Train.

(** [x.shift(k)]: row [i] holds the value of row [i - k]. *)
Definition shift (k : nat) (x : list (option Q)) : list (option Q) :=
  map (fun i => if (i <? k)%nat then None else nth (i - k) x None)
      (seq 0 (length x)).

Fixpoint all_present (l : list (option Q)) : option (list Q) :=
  match l with
  | [] => Some []
  | None :: _ => None
  | Some v :: t => option_map (cons v) (all_present t)
  end.

(** [x.rolling(n).mean()]: missing until [n] rows are available and
    whenever the window holds a missing value. *)
Definition rolling_mean (n : nat) (x : list (option Q)) : list (option Q) :=
  map (fun i =>
         if (i + 1 <? n)%nat then None
         else option_map Py.mean
                (all_present (firstn n (skipn (i + 1 - n) x))))
      (seq 0 (length x)).

(** A float cell that may be infinite or missing. *)
Inductive cell : Type := Num (q : Q) | Inf | NaN.

(** [x.pct_change(periods=k, fill_method=None)], that is
    [x / x.shift(k) - 1]. *)
Definition pct_change (k : nat) (x : list Q) : list cell :=
  map (fun p =>
         match snd p with
         | None => NaN
         | Some d =>
             if Qeq_bool d 0
             then (if Qeq_bool (fst p) 0 then NaN else Inf)
             else Num (fst p / d - 1)
         end)
      (combine x (shift k (map Some x))).

(** Lines 152-153: [.replace([np.inf, -np.inf], np.nan).fillna(0)]. *)
Definition clean (c : cell) : Q :=
  match c with
  | Num q => q
  | Inf | NaN => 0
  end.

Definition cell_at (column : list (option Q)) (i : nat) : option Q :=
  match nth_error column i with
  | Some (Some v) => Some v
  | _ => None
  end.

(** Row [i] of the county as it reaches the model (lines 137-181), or
    [None] when the row does not exist or is removed by [dropna]
    (line 165). *)
Definition training_row (county_code : Z) (ev_total : list Q) (i : nat)
  : option FeatureVector :=
  let column := map Some ev_total in
  match cell_at (shift 1 column) i,
        cell_at (shift 2 column) i,
        cell_at (shift 3 column) i,
        cell_at (rolling_mean 3 (shift 1 column)) i,
        nth_error (pct_change 1 ev_total) i,
        nth_error (pct_change 3 ev_total) i,
        training_growth_slope ev_total i with
  | Some lag1, Some lag2, Some lag3, Some roll_mean, Some pct1, Some pct3,
    Some slope =>
      Some {| f_months_since_start := Z.of_nat i;
              f_county_encoded := county_code;
              ev_total_lag1 := lag1;
              ev_total_lag2 := lag2;
              ev_total_lag3 := lag3;
              ev_total_roll_mean_3 := roll_mean;
              ev_total_pct_change_1 := clean pct1;
              ev_total_pct_change_3 := clean pct3;
              ev_growth_slope := slope |}
  | _, _, _, _, _, _, _ => None
  end.

End Train.

(** * Vocabulary of the statements *)

(** The value [historical_ev[-k]] when it exists. *)
Definition lag (w : Window) (k : nat) : Q :=
  nth (length (historical_ev w) - k) (historical_ev w) 0.

(** The two buffers keep the same length, at most 6. *)
Definition window_bounded (w : Window) : Prop :=
  (length (historical_ev w) <= 6)%nat /\
  length (cumulative_ev w) = length (historical_ev w).

Definition forecast_row (d : Timestamp) (pred : Q) (mss : Z)
    (c : option string) : Row :=
  {| r_Date := d; r_EV_Total := pred; r_months_since_start := mss;
     r_County := c; r_Source := Forecast |}.

Definition single_next_date (st : SingleState) : Timestamp :=
  DateOffset_months
    (to_datetime (fst (s_latest_row st)) (snd (s_latest_row st)) 1) 1.

(** Consecutive rows differ by exactly one in [months_since_start]. *)
Definition increments_by_one (rows : list Row) : Prop :=
  forall i r r',
    nth_error rows i = Some r -> nth_error rows (S i) = Some r' ->
    r_months_since_start r' = (r_months_since_start r + 1)%Z.






(** Consecutive dates fall in strictly increasing calendar months. *)
Definition months_strictly_increasing (dates : list Timestamp) : Prop :=
  forall i a b,
    nth_error dates i = Some a -> nth_error dates (S i) = Some b ->
    (month_count a < month_count b)%Z.

(** The combined series [combined] is the one of [county]. *)
Definition belongs_to (county : string) (combined : list CRow) : bool :=
  match combined with
  | [] => false
  | _ =>
      forallb (fun cr =>
                 match r_County (c_row cr) with
                 | Some c => String.eqb c county
                 | None => false
                 end) combined
  end.

(** Number of outcomes that a batch result holds for [county]. *)
Definition count_outcomes (county : string) (out : list (list CRow)) : nat :=
  length (filter (belongs_to county) out).

(** What one iteration of the batch loop appends to [all_combined]. *)
Definition county_outcomes (le_transform : string -> result Z)
    (model_predict : FeatureVector -> result Q) (horizon : nat)
    (df : list DfRow) (county : string) : list (list CRow) :=
  match le_transform county with
  | Raise _ => []
  | Ok county_code =>
      match county_forecast model_predict horizon df county county_code with
      | Ok (Some combined) => [combined; combined]
      | _ => []
      end
  end.

(** Row [i] of [future_rows] is dated [i + 1] months after the latest
    historical date and carries the county's name. *)
Definition future_rows_dated (county : string) (max_date : Timestamp)
    (rows : list Row) : Prop :=
  forall i r, nth_error rows i = Some r ->
    month_count (r_Date r) = (month_count max_date + Z.of_nat i + 1)%Z /\
    r_County r = Some county.

(** Each buffered cumulative value is its predecessor plus the buffered
    EV count at the same position. *)
Definition cumulative_consistent (w : Window) : Prop :=
  length (cumulative_ev w) = length (historical_ev w) /\
  forall i, (S i < length (cumulative_ev w))%nat ->
    nth (S i) (cumulative_ev w) 0 ==
    nth i (cumulative_ev w) 0 + nth (S i) (historical_ev w) 0.

Definition is_forecast (r : Row) : bool :=
  match r_Source r with Forecast => true | Historical => false end.

(** ** Sample inputs *)

(** A model whose [predict] always returns [v]. *)
Definition stub_model (v : Q) : FeatureVector -> result Q := fun _ => Ok v.

(** Month-end rows for one county, starting in January 2023. *)
Fixpoint sample_rows (county : string) (code : Z) (k : Z) (values : list Q)
  : list DfRow :=
  match values with
  | [] => []
  | v :: t =>
      {| County := county;
         Date := DateOffset_months (to_datetime 2023 1 31) k;
         EV_Total := v;
         county_encoded := code;
         months_since_start := k |} :: sample_rows county code (k + 1) t
  end.

Definition kings_df : list DfRow :=
  sample_rows "Kings" 0 0 [10; 12; 11; 13; 14; 15].

(** Three counties; the second one has two rows only. *)
Definition three_counties_df : list DfRow :=
  sample_rows "A" 0 0 [10; 12; 11; 13; 14; 15]
  ++ sample_rows "B" 1 0 [7; 9]
  ++ sample_rows "C" 2 0 [1; 2; 3; 4; 5; 6].

Definition three_counties_le (c : string) : result Z :=
  if String.eqb c "A" then Ok 0%Z
  else if String.eqb c "B" then Ok 1%Z
  else if String.eqb c "C" then Ok 2%Z
  else Raise ValueError.

(** One county with four rows. *)
Definition short_df : list DfRow := sample_rows "D" 0 0 [3; 0; 4; 4].

Definition short_le (c : string) : result Z :=
  if String.eqb c "D" then Ok 0%Z else Raise ValueError.

(** * Properties *)

(** ** List primitives *)

Lemma length_last_n {A : Type} (n : nat) (l : list A) :
  length (Py.last_n n l) = Nat.min n (length l).
Proof. unfold Py.last_n. rewrite length_skipn. lia. Qed.

Lemma last_n_all {A : Type} (n : nat) (l : list A) :
  (length l <= n)%nat -> Py.last_n n l = l.
Proof.
  intros H. unfold Py.last_n.
  replace (length l - n)%nat with O by lia. reflexivity.
Qed.

Lemma length_cumsum_from (acc : Q) (l : list Q) :
  length (Py.cumsum_from acc l) = length l.
Proof.
  revert acc. induction l as [|x t IH]; intros acc; simpl; [reflexivity|].
  now rewrite IH.
Qed.

Lemma length_cumsum (l : list Q) : length (Py.cumsum l) = length l.
Proof. apply length_cumsum_from. Qed.

Lemma neg_index_some (l : list Q) (k : nat) :
  (1 <= k <= length l)%nat ->
  Py.neg_index l k = Ok (nth (length l - k) l 0).
Proof.
  intros [H1 H2]. destruct k as [|k']; [lia|]. simpl.
  rewrite nth_error_nth' with (d := 0) by (rewrite length_rev; lia).
  rewrite rev_nth by lia. f_equal.
Qed.

Lemma neg_index_raise (l : list Q) (k : nat) :
  (length l < k)%nat -> Py.neg_index l k = Raise IndexError.
Proof.
  intros H. destruct k as [|k']; [reflexivity|]. simpl.
  destruct (nth_error (rev l) k') eqn:E; [|reflexivity].
  assert (k' < length (rev l))%nat as L
    by (apply nth_error_Some; congruence).
  rewrite length_rev in L. lia.
Qed.

(** ** The buffers *)

Lemma init_window_lengths (values : list Q) :
  length (historical_ev (init_window values)) = Nat.min 6 (length values) /\
  length (cumulative_ev (init_window values)) = Nat.min 6 (length values).
Proof.
  unfold init_window; simpl.
  rewrite length_cumsum, length_last_n. split; reflexivity.
Qed.

Lemma length_evict (l : list Q) :
  length (evict l) = if (6 <? length l)%nat then (length l - 1)%nat else length l.
Proof.
  unfold evict, Py.pop0. destruct (6 <? length l)%nat; [|reflexivity].
  destruct l; simpl; lia.
Qed.

Lemma push_ok (w : Window) (pred : Q) :
  cumulative_ev w <> [] ->
  push w pred =
  Ok {| historical_ev := evict (historical_ev w ++ [pred]);
        cumulative_ev :=
          evict (cumulative_ev w ++
                 [nth (length (cumulative_ev w) - 1) (cumulative_ev w) 0 + pred]) |}.
Proof.
  intros H. unfold push.
  rewrite neg_index_some; [reflexivity|].
  destruct (cumulative_ev w); [congruence | simpl; lia].
Qed.

Lemma push_empty (w : Window) (pred : Q) :
  cumulative_ev w = [] -> push w pred = Raise IndexError.
Proof. intros H. unfold push. rewrite H. reflexivity. Qed.

Lemma push_inv (w w' : Window) (pred : Q) :
  push w pred = Ok w' ->
  historical_ev w' = evict (historical_ev w ++ [pred]) /\
  cumulative_ev w' =
    evict (cumulative_ev w ++
           [nth (length (cumulative_ev w) - 1) (cumulative_ev w) 0 + pred]).
Proof.
  intros H. destruct (cumulative_ev w) eqn:E.
  - rewrite push_empty in H by assumption. discriminate.
  - rewrite push_ok in H by congruence. rewrite E in H.
    injection H as <-. simpl. split; reflexivity.
Qed.

Lemma length_evict_snoc (l : list Q) (x : Q) :
  (length l <= 6)%nat ->
  length (evict (l ++ [x])) = Nat.min 6 (length l + 1).
Proof.
  intros H. rewrite length_evict, length_app. cbn [length].
  destruct (6 <? length l + 1)%nat eqn:E.
  - apply Nat.ltb_lt in E. lia.
  - apply Nat.ltb_ge in E. lia.
Qed.

Lemma push_lengths (w w' : Window) (pred : Q) :
  push w pred = Ok w' ->
  (length (historical_ev w) <= 6)%nat ->
  (length (cumulative_ev w) <= 6)%nat ->
  length (historical_ev w') = Nat.min 6 (length (historical_ev w) + 1) /\
  length (cumulative_ev w') = Nat.min 6 (length (cumulative_ev w) + 1).
Proof.
  intros H Hh Hc. apply push_inv in H as [-> ->].
  rewrite !length_evict_snoc by assumption. split; reflexivity.
Qed.

(** ** Feature derivation *)

Lemma pct_change_ok (lag1 lagk : Q) :
  pct_change lag1 lagk =
  Ok (if Qeq_bool lagk 0 then 0 else (lag1 - lagk) / lagk).
Proof.
  unfold pct_change, Py.div. destruct (Qeq_bool lagk 0); reflexivity.
Qed.

Lemma derive_ok (w : Window) (mss code : Z) :
  (3 <= length (historical_ev w))%nat ->
  derive w mss code =
  Ok {| f_months_since_start := mss;
        f_county_encoded := code;
        ev_total_lag1 := lag w 1;
        ev_total_lag2 := lag w 2;
        ev_total_lag3 := lag w 3;
        ev_total_roll_mean_3 := Py.mean [lag w 1; lag w 2; lag w 3];
        ev_total_pct_change_1 :=
          if Qeq_bool (lag w 2) 0 then 0 else (lag w 1 - lag w 2) / lag w 2;
        ev_total_pct_change_3 :=
          if Qeq_bool (lag w 3) 0 then 0 else (lag w 1 - lag w 3) / lag w 3;
        ev_growth_slope := growth_slope (cumulative_ev w) |}.
Proof.
  intros H. unfold derive, lag.
  rewrite !neg_index_some by lia. cbn [bind].
  rewrite !pct_change_ok. reflexivity.
Qed.

Lemma derive_raise (w : Window) (mss code : Z) :
  (length (historical_ev w) < 3)%nat ->
  derive w mss code = Raise IndexError.
Proof.
  intros H. unfold derive.
  destruct (historical_ev w) as [|a [|b [|c t]]]; try reflexivity.
  simpl in H. lia.
Qed.

(** ** The loops *)

Lemma iterate_invariant {S : Type} (P : S -> Prop) (body : S -> result S) :
  (forall s s', P s -> body s = Ok s' -> P s') ->
  forall n s s', P s -> iterate body n s = Ok s' -> P s'.
Proof.
  intros Hstep n. induction n as [|n IH]; intros s s' Hs H; simpl in H.
  - injection H as <-. exact Hs.
  - destruct (body s) as [s1|e] eqn:E; simpl in H; [|discriminate].
    eapply IH; [|exact H]. eapply Hstep; eauto.
Qed.

Lemma iterate_total {S : Type} (P : S -> Prop) (body : S -> result S) :
  (forall s, P s -> exists s', body s = Ok s' /\ P s') ->
  forall n s, P s -> exists s', iterate body n s = Ok s' /\ P s'.
Proof.
  intros Hstep n. induction n as [|n IH]; intros s Hs; simpl.
  - eauto.
  - destruct (Hstep s Hs) as (s1 & -> & Hs1). simpl. apply IH. exact Hs1.
Qed.

Section LoopFacts.

Variable model_predict : FeatureVector -> result Q.
Variable county_code : Z.

Lemma single_step_inv (st st' : SingleState) :
  single_step model_predict county_code st = Ok st' ->
  exists fv pred,
    derive (s_window st) (s_months_since_start st + 1) county_code = Ok fv /\
    model_predict fv = Ok pred /\
    push (s_window st) pred = Ok (s_window st') /\
    s_months_since_start st' = (s_months_since_start st + 1)%Z /\
    s_future_rows st' =
      s_future_rows st ++
      [forecast_row (single_next_date st) pred
         (s_months_since_start st + 1) None].
Proof.
  unfold single_step, single_next_date. destruct (s_latest_row st) as [ly lm].
  intros H.
  destruct (derive _ _ _) as [fv|] eqn:Ed; cbn [bind] in H; [|discriminate].
  destruct (model_predict fv) as [pred|] eqn:Ep; cbn [bind] in H; [|discriminate].
  destruct (push _ pred) as [w|] eqn:Ew; cbn [bind] in H; [|discriminate].
  injection H as <-. exists fv, pred. cbn. auto.
Qed.

Lemma single_step_ok (st : SingleState) (fv : FeatureVector) (pred : Q)
    (w : Window) :
  derive (s_window st) (s_months_since_start st + 1) county_code = Ok fv ->
  model_predict fv = Ok pred ->
  push (s_window st) pred = Ok w ->
  single_step model_predict county_code st =
  Ok {| s_window := w;
        s_months_since_start := s_months_since_start st + 1;
        s_latest_row :=
          (year (single_next_date st), month (single_next_date st));
        s_future_rows :=
          s_future_rows st ++
          [forecast_row (single_next_date st) pred
             (s_months_since_start st + 1) None] |}.
Proof.
  intros Hd Hp Hw. unfold single_step, single_next_date.
  destruct (s_latest_row st) as [ly lm].
  rewrite Hd. cbn [bind]. rewrite Hp. cbn [bind]. rewrite Hw. reflexivity.
Qed.

Lemma single_init_ok (county_df : list DfRow) :
  county_df <> [] ->
  exists st, single_init county_df = Ok st /\
    s_window st = init_window (map EV_Total county_df) /\
    s_future_rows st = [].
Proof.
  intros H. unfold single_init.
  destruct county_df as [|r t]; [congruence|].
  cbn [map Pd.max_Z].
  destruct (nth_error (rev (r :: t)) 0) eqn:E.
  - eexists; split; [reflexivity|]. split; reflexivity.
  - apply nth_error_None in E. rewrite length_rev in E. simpl in E. lia.
Qed.

Lemma single_init_inv (county_df : list DfRow) (st : SingleState) :
  single_init county_df = Ok st ->
  s_window st = init_window (map EV_Total county_df) /\
  s_future_rows st = [].
Proof.
  unfold single_init. intros H.
  destruct (Pd.max_Z _); [|discriminate].
  destruct (nth_error _ 0); [|discriminate].
  injection H as <-. split; reflexivity.
Qed.

Lemma init_window_bounded (values : list Q) :
  window_bounded (init_window values).
Proof.
  destruct (init_window_lengths values) as [Hh Hc].
  unfold window_bounded. rewrite Hh, Hc. lia.
Qed.

Lemma push_bounded (w w' : Window) (pred : Q) :
  window_bounded w -> push w pred = Ok w' ->
  window_bounded w' /\
  length (historical_ev w') = Nat.min 6 (length (historical_ev w) + 1).
Proof.
  intros [Hh Hc] H.
  apply push_lengths in H as [H1 H2]; [|lia|lia].
  unfold window_bounded. rewrite H1, H2, Hc. lia.
Qed.

Lemma single_step_bounded (st st' : SingleState) :
  window_bounded (s_window st) ->
  single_step model_predict county_code st = Ok st' ->
  window_bounded (s_window st').
Proof.
  intros Hb H. apply single_step_inv in H as (fv & pred & _ & _ & Hp & _).
  eapply push_bounded; eauto.
Qed.

End LoopFacts.

(** ** The growth slope *)

Lemma growth_slope_short (c : list Q) :
  (length c < 6)%nat -> growth_slope c = 0.
Proof.
  intros H. unfold growth_slope. rewrite length_last_n.
  destruct (Nat.eqb_spec (Nat.min 6 (length c)) 6); [lia | reflexivity].
Qed.

Lemma growth_slope_long (c : list Q) :
  (6 <= length c)%nat ->
  growth_slope c = Py.polyfit_slope (Py.range 6) (Py.last_n 6 c).
Proof.
  intros H. unfold growth_slope. rewrite length_last_n.
  replace (Nat.min 6 (length c)) with 6%nat by lia. reflexivity.
Qed.

Lemma growth_slope_full (c : list Q) :
  length c = 6%nat -> growth_slope c = Py.polyfit_slope (Py.range 6) c.
Proof.
  intros H. rewrite growth_slope_long by lia.
  rewrite last_n_all by lia. reflexivity.
Qed.












(** ** Claims about one forecast run *)

(** C1 (horizon scenario). For a county whose history is the six values
    10, 12, 11, 13, 14, 15 and a model whose predict always returns 20,
    the single-county loop run for 3 steps succeeds, emits exactly 3
    forecast rows, each with value 20, whose [months_since_start] grow
    by exactly 1 from one row to the next, and leaves [historical_ev]
    equal to 13, 14, 15, 20, 20, 20. *)
Theorem horizon_scenario
    (model_predict : FeatureVector -> result Q) (county_code : Z)
    (county_df : list DfRow) :
  (forall fv, model_predict fv = Ok 20) ->
  map EV_Total county_df = [10; 12; 11; 13; 14; 15] ->
  exists st,
    single_loop model_predict 3 county_code county_df = Ok st /\
    length (s_future_rows st) = 3%nat /\
    Forall (fun r => r_EV_Total r = 20 /\ r_Source r = Forecast)
           (s_future_rows st) /\
    increments_by_one (s_future_rows st) /\
    historical_ev (s_window st) = [13; 14; 15; 20; 20; 20].
Proof.
  intros Hp Hv.
  assert (county_df <> []) as Hne by (intros ->; discriminate).
  destruct (single_init_ok county_df Hne) as (st0 & Hi & Hw & Hr).
  unfold single_loop. rewrite Hi. cbn [bind].
  rewrite Hv in Hw.
  destruct st0 as [w0 m0 l0 r0]. cbn in Hw, Hr. subst w0 r0.
  cbn [iterate].
  do 3 (erewrite single_step_ok;
        [ cbn [bind]
        | rewrite derive_ok by (cbn; lia); reflexivity
        | apply Hp
        | rewrite push_ok by (cbn; discriminate); reflexivity ]).
  eexists; split; [reflexivity|].
  cbn [s_future_rows s_window s_months_since_start historical_ev app length].
  split; [reflexivity|]. split; [repeat constructor|]. split; [|reflexivity].
  intros i r r' H1 H2.
  destruct i as [|[|[|i]]]; cbn in H1, H2;
    try discriminate;
    try (injection H1 as <-; injection H2 as <-; reflexivity).
Qed.

Lemma horizon_scenario_witness :
  (forall fv, stub_model 20 fv = Ok 20) /\
  map EV_Total kings_df = [10; 12; 11; 13; 14; 15] /\
  exists st,
    single_loop (stub_model 20) 3 0 kings_df = Ok st /\
    length (s_future_rows st) = 3%nat /\
    Forall (fun r => r_EV_Total r = 20 /\ r_Source r = Forecast)
           (s_future_rows st) /\
    increments_by_one (s_future_rows st) /\
    historical_ev (s_window st) = [13; 14; 15; 20; 20; 20].
Proof.
  split; [reflexivity|]. split; [reflexivity|].
  apply (horizon_scenario (stub_model 20) 0 kings_df); reflexivity.
Defined.

(** C2 (window bound). After initialisation ([n = 0]) and after every
    step of a single-county run ([n] steps done), [historical_ev] and
    [cumulative_ev] each hold at most 6 elements. *)
Theorem window_bound_invariant
    (model_predict : FeatureVector -> result Q) (county_code : Z)
    (county_df : list DfRow) (n : nat) (st : SingleState) :
  single_loop model_predict n county_code county_df = Ok st ->
  (length (historical_ev (s_window st)) <= 6)%nat /\
  (length (cumulative_ev (s_window st)) <= 6)%nat.
Proof.
  unfold single_loop. intros H.
  destruct (single_init county_df) as [st0|] eqn:Hi; cbn [bind] in H;
    [|discriminate].
  assert (window_bounded (s_window st)) as [Hh Hc].
  { eapply iterate_invariant with (P := fun s => window_bounded (s_window s));
      [ | | exact H ].
    - intros s s'. apply single_step_bounded.
    - apply single_init_inv in Hi as [-> _]. apply init_window_bounded. }
  lia.
Qed.

Lemma window_bound_invariant_witness :
  exists st,
    single_loop (stub_model 20) 4 0 kings_df = Ok st /\
    (length (historical_ev (s_window st)) <= 6)%nat /\
    (length (cumulative_ev (s_window st)) <= 6)%nat.
Proof.
  assert (exists st, single_loop (stub_model 20) 4 0 kings_df = Ok st)
    as [st H] by (vm_compute; eexists; reflexivity).
  exists st. split; [exact H|].
  exact (window_bound_invariant (stub_model 20) 0 kings_df 4 st H).
Defined.

Lemma derive_inv (w : Window) (mss code : Z) (fv : FeatureVector) :
  derive w mss code = Ok fv ->
  (3 <= length (historical_ev w))%nat /\
  ev_total_lag1 fv = lag w 1 /\
  ev_total_lag2 fv = lag w 2 /\
  ev_total_lag3 fv = lag w 3 /\
  ev_total_pct_change_1 fv =
    (if Qeq_bool (lag w 2) 0 then 0 else (lag w 1 - lag w 2) / lag w 2) /\
  ev_total_pct_change_3 fv =
    (if Qeq_bool (lag w 3) 0 then 0 else (lag w 1 - lag w 3) / lag w 3) /\
  ev_growth_slope fv = growth_slope (cumulative_ev w).
Proof.
  intros H.
  destruct (Nat.le_gt_cases 3 (length (historical_ev w))) as [L|L].
  - rewrite derive_ok in H by assumption. injection H as <-.
    cbn. repeat split; auto.
  - rewrite derive_raise in H by assumption. discriminate.
Qed.



(** C4 (division guard). Deriving features never raises a division by
    zero, whatever the buffers hold; in the derived vector
    [pct_change_1] is 0 when lag2 is 0 and (lag1 - lag2) / lag2
    otherwise, and [pct_change_3] is 0 when lag3 is 0 and
    (lag1 - lag3) / lag3 otherwise. *)
Theorem division_guard (w : Window) (mss code : Z) :
  derive w mss code <> Raise ZeroDivisionError /\
  forall fv, derive w mss code = Ok fv ->
    (ev_total_lag2 fv == 0 -> ev_total_pct_change_1 fv = 0) /\
    (~ ev_total_lag2 fv == 0 ->
     ev_total_pct_change_1 fv =
       (ev_total_lag1 fv - ev_total_lag2 fv) / ev_total_lag2 fv) /\
    (ev_total_lag3 fv == 0 -> ev_total_pct_change_3 fv = 0) /\
    (~ ev_total_lag3 fv == 0 ->
     ev_total_pct_change_3 fv =
       (ev_total_lag1 fv - ev_total_lag3 fv) / ev_total_lag3 fv).
Proof.
  split.
  - destruct (Nat.le_gt_cases 3 (length (historical_ev w))) as [L|L].
    + rewrite derive_ok by assumption. discriminate.
    + rewrite derive_raise by assumption. discriminate.
  - intros fv H.
    apply derive_inv in H as (_ & -> & -> & -> & -> & -> & _).
    repeat split; intros E.
    + apply Qeq_bool_iff in E. now rewrite E.
    + destruct (Qeq_bool (lag w 2) 0) eqn:B; [|reflexivity].
      apply Qeq_bool_iff in B. contradiction.
    + apply Qeq_bool_iff in E. now rewrite E.
    + destruct (Qeq_bool (lag w 3) 0) eqn:B; [|reflexivity].
      apply Qeq_bool_iff in B. contradiction.
Qed.

Lemma division_guard_witness :
  exists fv,
    derive (init_window [5; 4; 0; 8]) 4 0 = Ok fv /\
    ev_total_pct_change_1 fv = 0 /\
    ev_total_pct_change_3 fv =
      (ev_total_lag1 fv - ev_total_lag3 fv) / ev_total_lag3 fv.
Proof.
  eexists. split; [reflexivity|].
  destruct (proj2 (division_guard (init_window [5; 4; 0; 8]) 4 0)
              _ eq_refl) as (H1 & _ & _ & H4).
  split.
  - apply H1. reflexivity.
  - apply H4. intros E. vm_compute in E. discriminate E.
Defined.

Section SingleRun.

Variable model_predict : FeatureVector -> result Q.
Variable county_code : Z.

Lemma single_iterate_lengths (n : nat) (st st' : SingleState) :
  window_bounded (s_window st) ->
  iterate (single_step model_predict county_code) n st = Ok st' ->
  window_bounded (s_window st') /\
  length (historical_ev (s_window st')) =
    Nat.min 6 (length (historical_ev (s_window st)) + n) /\
  length (s_future_rows st') = (length (s_future_rows st) + n)%nat.
Proof.
  revert st. induction n as [|n IH]; intros st Hb H; cbn [iterate] in H.
  - injection H as <-. destruct Hb. repeat split; auto; lia.
  - destruct (single_step _ _ st) as [s1|] eqn:E; cbn [bind] in H;
      [|discriminate].
    apply single_step_inv in E as (fv & pred & _ & _ & Hp & _ & Hr).
    destruct (push_bounded _ _ _ Hb Hp) as [Hb1 Hl1].
    destruct (IH s1 Hb1 H) as (Hb' & Hl' & Hr').
    split; [exact Hb'|]. rewrite Hl', Hl1, Hr', Hr, length_app.
    cbn [length]. lia.
Qed.

Lemma single_loop_lengths (n : nat) (county_df : list DfRow)
    (st : SingleState) :
  single_loop model_predict n county_code county_df = Ok st ->
  window_bounded (s_window st) /\
  length (historical_ev (s_window st)) =
    Nat.min 6 (length county_df + n) /\
  length (s_future_rows st) = n.
Proof.
  unfold single_loop. intros H.
  destruct (single_init county_df) as [st0|] eqn:Hi; cbn [bind] in H;
    [|discriminate].
  apply single_init_inv in Hi as [Hw Hr].
  apply single_iterate_lengths in H as (Hb & Hl & Hn);
    [|rewrite Hw; apply init_window_bounded].
  split; [exact Hb|]. rewrite Hl, Hn, Hr, Hw.
  rewrite (proj1 (init_window_lengths _)), length_map. cbn [length]. lia.
Qed.

(** With a model that never raises, a run that starts from at least
    three historical rows completes, whatever the horizon. *)
Lemma single_loop_total (n : nat) (county_df : list DfRow) :
  (forall fv, exists pred, model_predict fv = Ok pred) ->
  (3 <= length county_df)%nat ->
  exists st, single_loop model_predict n county_code county_df = Ok st.
Proof.
  intros Hm Hl. unfold single_loop.
  destruct (single_init_ok county_df) as (st0 & -> & Hw & _).
  { destruct county_df; [simpl in Hl; lia | discriminate]. }
  cbn [bind].
  destruct (iterate_total
              (fun s => window_bounded (s_window s) /\
                        (3 <= length (historical_ev (s_window s)))%nat)
              (single_step model_predict county_code)) with (n := n) (s := st0)
    as (st & Hst & _).
  - intros s [Hb H3].
    destruct (Hm {| f_months_since_start := s_months_since_start s + 1;
                    f_county_encoded := county_code;
                    ev_total_lag1 := lag (s_window s) 1;
                    ev_total_lag2 := lag (s_window s) 2;
                    ev_total_lag3 := lag (s_window s) 3;
                    ev_total_roll_mean_3 :=
                      Py.mean [lag (s_window s) 1; lag (s_window s) 2;
                               lag (s_window s) 3];
                    ev_total_pct_change_1 :=
                      if Qeq_bool (lag (s_window s) 2) 0 then 0
                      else (lag (s_window s) 1 - lag (s_window s) 2)
                           / lag (s_window s) 2;
                    ev_total_pct_change_3 :=
                      if Qeq_bool (lag (s_window s) 3) 0 then 0
                      else (lag (s_window s) 1 - lag (s_window s) 3)
                           / lag (s_window s) 3;
                    ev_growth_slope :=
                      growth_slope (cumulative_ev (s_window s)) |})
      as [pred Hp].
    assert (cumulative_ev (s_window s) <> []) as Hc.
    { destruct Hb as [_ Hc]. intros E. rewrite E in Hc. simpl in Hc. lia. }
    eexists. split.
    + eapply single_step_ok with (pred := pred).
      * apply derive_ok. exact H3.
      * exact Hp.
      * apply push_ok. exact Hc.
    + cbn [s_window]. pose proof (push_ok (s_window s) pred Hc) as Hpush.
      destruct (push_bounded _ _ _ Hb Hpush) as [Hb' Hl'].
      split; [exact Hb'|]. rewrite Hl'. lia.
  - split.
    + rewrite Hw. apply init_window_bounded.
    + rewrite Hw, (proj1 (init_window_lengths _)), length_map. lia.
  - exists st. exact Hst.
Qed.

End SingleRun.

(** C10 (full window). When a county has at least 6 historical rows, both
    buffers hold exactly 6 elements after initialisation and after every
    step, so each step's feature derivation succeeds and takes the
    least-squares branch for [ev_growth_slope], not the 0 fallback. *)
Theorem full_window_invariant
    (model_predict : FeatureVector -> result Q) (county_code : Z)
    (county_df : list DfRow) (n : nat) (st : SingleState) :
  (6 <= length county_df)%nat ->
  single_loop model_predict n county_code county_df = Ok st ->
  length (historical_ev (s_window st)) = 6%nat /\
  length (cumulative_ev (s_window st)) = 6%nat /\
  (length (Py.last_n 6 (cumulative_ev (s_window st))) =? 6)%nat = true /\
  forall mss, exists fv,
    derive (s_window st) mss county_code = Ok fv /\
    ev_growth_slope fv =
      Py.polyfit_slope (Py.range 6) (cumulative_ev (s_window st)).
Proof.
  intros Hl H. apply single_loop_lengths in H as ([_ Hc] & Hh & _).
  assert (length (historical_ev (s_window st)) = 6%nat) as H6 by lia.
  rewrite Hc, H6. split; [reflexivity|]. split; [reflexivity|]. split.
  - rewrite length_last_n, Hc, H6. reflexivity.
  - intros mss. eexists. split.
    + apply derive_ok. lia.
    + cbn [ev_growth_slope]. apply growth_slope_full. lia.
Qed.

Lemma full_window_invariant_witness :
  (6 <= length kings_df)%nat /\
  exists st,
    single_loop (stub_model 20) 5 0 kings_df = Ok st /\
    length (historical_ev (s_window st)) = 6%nat /\
    length (cumulative_ev (s_window st)) = 6%nat.
Proof.
  split; [cbn; lia|].
  assert (exists st, single_loop (stub_model 20) 5 0 kings_df = Ok st)
    as [st H] by (vm_compute; eexists; reflexivity).
  exists st. split; [exact H|].
  destruct (full_window_invariant (stub_model 20) 0 kings_df 5 st) as (A & B & _);
    [cbn; lia | exact H | split; assumption].
Defined.

(** ** Training-time and inference-time slopes *)














(** ** Assembling the combined series *)

Lemma insert_sorted_perm {A : Type} (leb : A -> A -> bool) (x : A)
    (l : list A) :
  Permutation (x :: l) (Pd.insert_sorted leb x l).
Proof.
  induction l as [|y t IH]; simpl; [reflexivity|].
  destruct (leb y x); [|reflexivity].
  rewrite perm_swap. now constructor.
Qed.

Lemma insert_sorted_sorted {A : Type} (leb : A -> A -> bool) (x : A)
    (l : list A) :
  (forall a b, leb a b = false -> leb b a = true) ->
  Sorted (fun a b => leb a b = true) l ->
  Sorted (fun a b => leb a b = true) (Pd.insert_sorted leb x l).
Proof.
  intros Htot. induction l as [|y t IH]; intros Hs; simpl.
  - repeat constructor.
  - destruct (leb y x) eqn:E.
    + inversion Hs as [|? ? Ht Hy]; subst. constructor; [now apply IH|].
      destruct t as [|z t']; simpl.
      * constructor. exact E.
      * destruct (leb z x); constructor; [|exact E].
        inversion Hy; subst. assumption.
    + constructor; [exact Hs|]. constructor. now apply Htot.
Qed.

Lemma sort_values_from_perm {A : Type} (leb : A -> A -> bool)
    (l acc : list A) :
  Permutation (acc ++ l)
    (fold_left (fun acc x => Pd.insert_sorted leb x acc) l acc).
Proof.
  revert acc. induction l as [|x t IH]; intros acc; simpl.
  - now rewrite app_nil_r.
  - rewrite <- IH. rewrite <- insert_sorted_perm.
    symmetry. apply Permutation_middle.
Qed.

Lemma sort_values_perm {A : Type} (leb : A -> A -> bool) (l : list A) :
  Permutation l (Pd.sort_values leb l).
Proof. apply (sort_values_from_perm leb l []). Qed.

Lemma sort_values_sorted {A : Type} (leb : A -> A -> bool) (l : list A) :
  (forall a b, leb a b = false -> leb b a = true) ->
  Sorted (fun a b => leb a b = true) (Pd.sort_values leb l).
Proof.
  intros Htot. unfold Pd.sort_values.
  assert (forall acc, Sorted (fun a b => leb a b = true) acc ->
            Sorted (fun a b => leb a b = true)
              (fold_left (fun acc x => Pd.insert_sorted leb x acc) l acc)) as G.
  { induction l as [|x t IH]; intros acc Hs; simpl; [exact Hs|].
    apply IH. now apply insert_sorted_sorted. }
  apply G. constructor.
Qed.

Lemma date_leb_total (a b : Timestamp) :
  date_leb a b = false -> date_leb b a = true.
Proof.
  unfold date_leb. intros H.
  apply orb_false_iff in H as [H1 H2].
  apply Z.ltb_ge in H1.
  destruct (Z.ltb_spec (month_count b) (month_count a)) as [L|L];
    [reflexivity|].
  assert (month_count a = month_count b) as E by lia.
  rewrite E, Z.eqb_refl in *. cbn in *.
  apply Z.leb_gt in H2. apply Z.leb_le. lia.
Qed.

Lemma with_cumsum_rows (rows : list Row) :
  map c_row (Pd.with_cumsum rows) = rows.
Proof.
  unfold Pd.with_cumsum. rewrite map_map. cbn [c_row].
  rewrite <- (map_map fst (fun r => r)), map_id.
  assert (forall (l : list Row) (c : list Q),
             length l = length c -> map fst (combine l c) = l) as G.
  { induction l as [|x t IH]; intros [|y c] H; simpl in *;
      try discriminate; [reflexivity|]. f_equal. apply IH. lia. }
  apply G. now rewrite length_cumsum, length_map.
Qed.

Lemma nth_error_cumsum_from (l : list Q) (acc : Q) (i : nat) (v : Q) :
  nth_error (Py.cumsum_from acc l) i = Some v ->
  v = fold_left Qplus (firstn (S i) l) acc.
Proof.
  revert acc i. induction l as [|x t IH]; intros acc i H.
  - destruct i; discriminate.
  - destruct i as [|i]; simpl in H.
    + injection H as <-. reflexivity.
    + apply IH in H. exact H.
Qed.

Lemma nth_error_combine_snd {A B : Type} (l : list A) (c : list B)
    (i : nat) (p : A * B) :
  nth_error (combine l c) i = Some p -> nth_error c i = Some (snd p).
Proof.
  revert c i. induction l as [|x t IH]; intros [|y c] i H;
    try (destruct i; discriminate).
  destruct i as [|i]; simpl in *.
  - injection H as <-. reflexivity.
  - now apply IH.
Qed.

Lemma with_cumsum_total (rows : list Row) (i : nat) (cr : CRow) :
  nth_error (Pd.with_cumsum rows) i = Some cr ->
  Cumulative_EVs cr = Py.sum (firstn (S i) (map r_EV_Total rows)).
Proof.
  unfold Pd.with_cumsum. intros H. rewrite nth_error_map in H.
  destruct (nth_error (combine _ _) i) as [p|] eqn:E; [|discriminate].
  injection H as <-. cbn [Cumulative_EVs].
  apply nth_error_combine_snd in E.
  apply nth_error_cumsum_from in E. exact E.
Qed.

(** C7 (cumulative consistency). The combined series is the
    concatenation of the historical and forecast rows sorted by date,
    and the cumulative total of its entry [i] is the sum of the values
    of the entries at positions 0..i of that sorted sequence. *)
Theorem cumulative_consistency (historical forecast_df : list Row)
    (i : nat) (cr : CRow) :
  nth_error (assemble historical forecast_df) i = Some cr ->
  Permutation (historical ++ forecast_df)
              (map c_row (assemble historical forecast_df)) /\
  Sorted (fun a b => date_leb (r_Date a) (r_Date b) = true)
         (map c_row (assemble historical forecast_df)) /\
  Cumulative_EVs cr =
    Py.sum (map r_EV_Total
              (firstn (S i) (map c_row (assemble historical forecast_df)))).
Proof.
  unfold assemble. intros H. rewrite with_cumsum_rows.
  split; [apply sort_values_perm|]. split.
  - apply (sort_values_sorted (fun a b => date_leb (r_Date a) (r_Date b))).
    intros a b. apply date_leb_total.
  - rewrite <- firstn_map. now apply with_cumsum_total.
Qed.

Lemma cumulative_consistency_witness :
  exists cr,
    nth_error (assemble (batch_historical "Kings" kings_df)
                 [forecast_row (to_datetime 2023 7 31) 20 6 (Some "Kings"%string)]) 6
      = Some cr /\
    Cumulative_EVs cr =
      Py.sum (map r_EV_Total
                (firstn 7
                   (map c_row
                      (assemble (batch_historical "Kings" kings_df)
                         [forecast_row (to_datetime 2023 7 31) 20 6
                            (Some "Kings"%string)])))).
Proof.
  assert (exists cr,
             nth_error (assemble (batch_historical "Kings" kings_df)
                          [forecast_row (to_datetime 2023 7 31) 20 6
                             (Some "Kings"%string)]) 6 = Some cr)
    as [cr H] by (vm_compute; eexists; reflexivity).
  exists cr. split; [exact H|].
  exact (proj2 (proj2 (cumulative_consistency _ _ 6 cr H))).
Defined.

(** ** Sorted inputs *)

Lemma Sorted_consecutive {A : Type} (R : A -> A -> Prop) (l : list A) :
  Sorted R l <->
  (forall i a b, nth_error l i = Some a -> nth_error l (S i) = Some b -> R a b).
Proof.
  split.
  - induction 1 as [|x t Ht IH Hx]; intros i a b Ha Hb.
    + destruct i; discriminate.
    + destruct i as [|i]; simpl in Ha, Hb.
      * injection Ha as <-. destruct t as [|y t']; [discriminate|].
        simpl in Hb. injection Hb as <-. now inversion Hx.
      * eapply IH; eauto.
  - induction l as [|x t IH]; intros H; constructor.
    + apply IH. intros i a b Ha Hb. apply (H (S i)); assumption.
    + destruct t as [|y t']; constructor. now apply (H O).
Qed.

Lemma StronglySorted_app {A : Type} (R : A -> A -> Prop) (a b : list A) :
  StronglySorted R a -> StronglySorted R b ->
  (forall x y, In x a -> In y b -> R x y) ->
  StronglySorted R (a ++ b).
Proof.
  induction 1 as [|x t Ht IH Hx]; intros Hb Hab; simpl; [exact Hb|].
  constructor.
  - apply IH; [exact Hb|]. intros; apply Hab; simpl; auto.
  - apply Forall_app. split; [exact Hx|].
    apply Forall_forall. intros y Hy. apply Hab; simpl; auto.
Qed.

Lemma insert_sorted_last {A : Type} (leb : A -> A -> bool) (x : A)
    (l : list A) :
  Forall (fun y => leb y x = true) l ->
  Pd.insert_sorted leb x l = l ++ [x].
Proof.
  induction 1 as [|y t Hy _ IH]; simpl; [reflexivity|].
  now rewrite Hy, IH.
Qed.

(** Sorting a list that is already in order leaves it unchanged. *)
Lemma sort_values_sorted_id {A : Type} (leb : A -> A -> bool) (l : list A) :
  StronglySorted (fun a b => leb a b = true) l ->
  Pd.sort_values leb l = l.
Proof.
  unfold Pd.sort_values.
  assert (forall acc,
             StronglySorted (fun a b => leb a b = true) (acc ++ l) ->
             fold_left (fun acc x => Pd.insert_sorted leb x acc) l acc
             = acc ++ l) as G.
  { induction l as [|x t IH]; intros acc H; simpl.
    - now rewrite app_nil_r.
    - assert (Forall (fun y => leb y x = true) acc) as Hacc.
      { clear IH. induction acc as [|y acc IHa]; [constructor|].
        simpl in H. inversion H as [|? ? Ht Hy]; subst. constructor.
        - rewrite Forall_app in Hy. destruct Hy as [_ Hy].
          now inversion Hy.
        - now apply IHa. }
      rewrite insert_sorted_last by exact Hacc.
      rewrite IH; rewrite <- app_assoc; [reflexivity | exact H]. }
  intros H. apply (G []). exact H.
Qed.

Lemma date_max_ge (a b : Timestamp) :
  (month_count a <= month_count (date_max a b))%Z /\
  (month_count b <= month_count (date_max a b))%Z.
Proof.
  unfold date_max. destruct (date_leb a b) eqn:E.
  - unfold date_leb in E. apply orb_true_iff in E as [E|E].
    + apply Z.ltb_lt in E. lia.
    + apply andb_true_iff in E as [E _]. apply Z.eqb_eq in E. lia.
  - apply date_leb_total in E. unfold date_leb in E.
    apply orb_true_iff in E as [E|E].
    + apply Z.ltb_lt in E. lia.
    + apply andb_true_iff in E as [E _]. apply Z.eqb_eq in E. lia.
Qed.

Lemma max_date_ge (l : list Timestamp) (m d : Timestamp) :
  Pd.max_date l = Some m -> In d l ->
  (month_count d <= month_count m)%Z.
Proof.
  destruct l as [|x t]; [discriminate|]. cbn [Pd.max_date].
  intros H. injection H as <-.
  assert (forall t x d, In d (x :: t) ->
            (month_count d <= month_count (fold_left date_max t x))%Z) as G.
  { clear. induction t as [|y t IH]; intros x d Hd; simpl.
    - destruct Hd as [<-|[]]. lia.
    - destruct (date_max_ge x y) as [H1 H2].
      destruct Hd as [<-|[<-|Hd]].
      + specialize (IH (date_max x y) (date_max x y) (or_introl eq_refl)). lia.
      + specialize (IH (date_max x y) (date_max x y) (or_introl eq_refl)). lia.
      + apply IH. right. exact Hd. }
  apply G.
Qed.

(** ** The batch loop *)

Section BatchRun.

Variable le_transform : string -> result Z.
Variable model_predict : FeatureVector -> result Q.
Variable horizon : nat.
Variable df : list DfRow.

Lemma batch_step_inv (county : string) (code : Z) (max_date : Timestamp)
    (st st' : BatchState) :
  batch_step model_predict county code max_date st = Ok st' ->
  exists fv pred,
    derive (b_window st) (b_months_since_start st + 1) code = Ok fv /\
    model_predict fv = Ok pred /\
    push (b_window st) pred = Ok (b_window st') /\
    b_future_rows st' =
      b_future_rows st ++
      [forecast_row
         (DateOffset_months max_date
            (Z.of_nat (length (b_future_rows st)) + 1))
         pred (b_months_since_start st + 1) (Some county)].
Proof.
  unfold batch_step. intros H.
  destruct (derive _ _ _) as [fv|] eqn:Ed; cbn [bind] in H; [|discriminate].
  destruct (model_predict fv) as [pred|] eqn:Ep; cbn [bind] in H;
    [|discriminate].
  destruct (push _ pred) as [w|] eqn:Ew; cbn [bind] in H; [|discriminate].
  injection H as <-. exists fv, pred. cbn. auto.
Qed.

Lemma batch_iterate_dated (county : string) (code : Z)
    (max_date : Timestamp) (n : nat) (st st' : BatchState) :
  future_rows_dated county max_date (b_future_rows st) ->
  iterate (batch_step model_predict county code max_date) n st = Ok st' ->
  future_rows_dated county max_date (b_future_rows st').
Proof.
  intros H0 H.
  refine (iterate_invariant
            (fun s => future_rows_dated county max_date (b_future_rows s))
            (batch_step model_predict county code max_date)
            _ n st st' H0 H).
  intros s s' Hs Hstep.
  apply batch_step_inv in Hstep as (fv & pred & _ & _ & _ & ->).
  intros i r Hi.
  destruct (Nat.lt_ge_cases i (length (b_future_rows s))) as [L|L].
  - rewrite nth_error_app1 in Hi by exact L. now apply Hs.
  - rewrite nth_error_app2 in Hi by exact L.
    destruct (i - length (b_future_rows s))%nat as [|k] eqn:E;
      [|destruct k; discriminate].
    cbn in Hi. injection Hi as <-. cbn. split; [lia|reflexivity].
Qed.

End BatchRun.

Lemma StronglySorted_weaken {A : Type} (R R' : A -> A -> Prop) (l : list A) :
  (forall a b, R a b -> R' a b) ->
  StronglySorted R l -> StronglySorted R' l.
Proof.
  intros HR. induction 1 as [|x t Ht IH Hx]; constructor; [exact IH|].
  eapply Forall_impl; [|exact Hx]. intros; now apply HR.
Qed.

Lemma consecutive_map {A B : Type} (f : A -> B) (R : B -> B -> Prop)
    (l : list A) :
  (forall i a b, nth_error (map f l) i = Some a ->
                 nth_error (map f l) (S i) = Some b -> R a b) <->
  (forall i a b, nth_error l i = Some a ->
                 nth_error l (S i) = Some b -> R (f a) (f b)).
Proof.
  split; intros H i a b Ha Hb.
  - apply (H i); rewrite nth_error_map; [rewrite Ha | rewrite Hb]; reflexivity.
  - rewrite nth_error_map in Ha, Hb.
    destruct (nth_error l i) as [a'|] eqn:Ea; [|discriminate].
    destruct (nth_error l (S i)) as [b'|] eqn:Eb; [|discriminate].
    injection Ha as <-. injection Hb as <-. now apply (H i).
Qed.

(** Rows whose dates fall in strictly increasing months. *)
Lemma months_increasing_strongly_sorted (rows : list Row) :
  months_strictly_increasing (map r_Date rows) <->
  StronglySorted
    (fun a b => (month_count (r_Date a) < month_count (r_Date b))%Z) rows.
Proof.
  unfold months_strictly_increasing.
  rewrite (consecutive_map r_Date
             (fun a b => (month_count a < month_count b)%Z) rows).
  rewrite <- (Sorted_consecutive
                (fun a b => (month_count (r_Date a) < month_count (r_Date b))%Z)).
  split; [|apply StronglySorted_Sorted].
  apply Sorted_StronglySorted. intros a b c. lia.
Qed.

Lemma county_forecast_inv (model_predict : FeatureVector -> result Q)
    (horizon : nat) (df : list DfRow) (county : string) (code : Z)
    (combined : list CRow) :
  county_forecast model_predict horizon df county code = Ok (Some combined) ->
  (6 <= length (county_frame df code))%nat /\
  exists mss max_date st,
    Pd.max_date (map Date (county_frame df code)) = Some max_date /\
    iterate (batch_step model_predict county code max_date) horizon
      {| b_window := init_window (map EV_Total (county_frame df code));
         b_months_since_start := mss;
         b_slope_history := [];
         b_future_rows := [] |} = Ok st /\
    combined =
      assemble (batch_historical county (county_frame df code))
               (b_future_rows st).
Proof.
  unfold county_forecast. intros H.
  destruct (Nat.ltb_spec (length (county_frame df code)) 6) as [L|L];
    [discriminate|].
  split; [exact L|].
  destruct (Pd.max_Z _) as [mss|]; [|discriminate].
  destruct (Pd.max_date _) as [max_date|]; [|discriminate].
  destruct (iterate _ _ _) as [st|] eqn:E; cbn [bind] in H; [|discriminate].
  injection H as <-. exists mss, max_date, st. auto.
Qed.

(** C8 (monotonic calendar). When the historical rows of a county fall
    in strictly increasing calendar months, so do the entries of the
    combined series that the batch loop assembles for it: the month of
    entry [i] is strictly earlier than the month of entry [i + 1]. *)
Theorem monotonic_calendar (model_predict : FeatureVector -> result Q)
    (horizon : nat) (df : list DfRow) (county : string) (code : Z)
    (combined : list CRow) :
  county_forecast model_predict horizon df county code = Ok (Some combined) ->
  months_strictly_increasing (map Date (county_frame df code)) ->
  months_strictly_increasing (map (fun cr => r_Date (c_row cr)) combined).
Proof.
  intros H Hhist.
  apply county_forecast_inv in H
    as (_ & mss & max_date & st & Hmax & Hrun & ->).
  apply batch_iterate_dated in Hrun; [|intros [|i] r Hi; discriminate].
  set (hist := batch_historical county (county_frame df code)) in *.
  assert (map r_Date hist = map Date (county_frame df code)) as Hdates.
  { unfold hist, batch_historical. rewrite map_map. reflexivity. }
  rewrite <- Hdates in Hhist.
  apply months_increasing_strongly_sorted in Hhist.
  assert (StronglySorted
            (fun a b => (month_count (r_Date a) < month_count (r_Date b))%Z)
            (b_future_rows st)) as Hfut.
  { apply months_increasing_strongly_sorted.
    unfold months_strictly_increasing.
    apply (proj2 (consecutive_map r_Date
                    (fun a b => (month_count a < month_count b)%Z)
                    (b_future_rows st))).
    intros i a b Ha Hb.
    apply Hrun in Ha as [Ha _]. apply Hrun in Hb as [Hb _]. lia. }
  assert (StronglySorted
            (fun a b => (month_count (r_Date a) < month_count (r_Date b))%Z)
            (hist ++ b_future_rows st)) as Hall.
  { apply StronglySorted_app; [exact Hhist | exact Hfut |].
    intros x y Hx Hy.
    assert (month_count (r_Date x) <= month_count max_date)%Z.
    { apply (max_date_ge _ _ _ Hmax). rewrite <- Hdates. now apply in_map. }
    apply In_nth_error in Hy as [i Hi]. apply Hrun in Hi as [Hi _]. lia. }
  unfold assemble.
  rewrite <- (map_map c_row r_Date), with_cumsum_rows.
  rewrite sort_values_sorted_id.
  - now apply months_increasing_strongly_sorted.
  - eapply StronglySorted_weaken; [|exact Hall].
    intros a b Hab. cbv beta. unfold date_leb.
    apply orb_true_iff. left. now apply Z.ltb_lt.
Qed.

Lemma monotonic_calendar_witness :
  months_strictly_increasing (map Date (county_frame kings_df 0)) /\
  exists combined,
    county_forecast (stub_model 20) 3 kings_df "Kings" 0 = Ok (Some combined) /\
    months_strictly_increasing (map (fun cr => r_Date (c_row cr)) combined).
Proof.
  assert (months_strictly_increasing (map Date (county_frame kings_df 0)))
    as Hm.
  { intros i a b Ha Hb.
    do 6 (destruct i as [|i]; [vm_compute in Ha, Hb;
                               injection Ha as <-; try injection Hb as <-;
                               try discriminate; cbn; lia|]).
    destruct i; discriminate. }
  split; [exact Hm|].
  assert (exists combined,
             county_forecast (stub_model 20) 3 kings_df "Kings" 0
             = Ok (Some combined))
    as [combined H] by (vm_compute; eexists; reflexivity).
  exists combined. split; [exact H|].
  exact (monotonic_calendar (stub_model 20) 3 kings_df "Kings" 0 combined H Hm).
Defined.

(** ** Claims about the batch *)

Section BatchOutcomes.

Variable le_transform : string -> result Z.
Variable model_predict : FeatureVector -> result Q.
Variable horizon : nat.
Variable df : list DfRow.

(** The unguarded second copy recomputes what the guarded copy
    computed, so it raises nothing that the first one did not. *)
Lemma batch_iteration_outcomes (all_combined : list (list CRow))
    (county : string) :
  batch_iteration le_transform model_predict horizon df all_combined county
  = Ok (all_combined
        ++ county_outcomes le_transform model_predict horizon df county).
Proof.
  unfold batch_iteration, county_outcomes.
  destruct (le_transform county) as [code|e]; cbn [bind].
  - destruct (county_forecast model_predict horizon df county code)
      as [[combined|]|e] eqn:E; cbn [bind].
    + rewrite E. cbn [bind]. now rewrite <- app_assoc.
    + now rewrite app_nil_r.
    + now rewrite app_nil_r.
  - now rewrite app_nil_r.
Qed.

Lemma batch_loop_outcomes (counties : list string)
    (all_combined : list (list CRow)) :
  batch_loop le_transform model_predict horizon df all_combined counties
  = Ok (all_combined
        ++ flat_map (county_outcomes le_transform model_predict horizon df)
                    counties).
Proof.
  revert all_combined.
  induction counties as [|county rest IH]; intros acc; simpl.
  - now rewrite app_nil_r.
  - rewrite batch_iteration_outcomes. cbn [bind].
    rewrite IH. now rewrite <- app_assoc.
Qed.

Lemma county_forecast_rows (county : string) (code : Z)
    (combined : list CRow) :
  county_forecast model_predict horizon df county code = Ok (Some combined) ->
  combined <> [] /\
  Forall (fun cr => r_County (c_row cr) = Some county) combined.
Proof.
  intros H. apply county_forecast_inv in H
    as (L & mss & max_date & st & _ & Hrun & ->).
  apply batch_iterate_dated in Hrun; [|intros [|i] r Hi; discriminate].
  assert (Permutation
            (batch_historical county (county_frame df code)
             ++ b_future_rows st)
            (map c_row (assemble
                          (batch_historical county (county_frame df code))
                          (b_future_rows st)))) as P.
  { unfold assemble. rewrite with_cumsum_rows. apply sort_values_perm. }
  split.
  - intros E. rewrite E in P. apply Permutation_length in P.
    rewrite length_app in P. unfold batch_historical in P.
    rewrite length_map in P. simpl in P. lia.
  - apply Forall_map with (f := c_row)
                          (P := fun r => r_County r = Some county).
    eapply Permutation_Forall; [exact P|].
    apply Forall_app. split.
    + unfold batch_historical. apply Forall_map.
      apply Forall_forall. intros; reflexivity.
    + apply Forall_forall. intros r Hr.
      apply In_nth_error in Hr as [i Hi]. now apply Hrun in Hi.
Qed.

Lemma county_forecast_belongs (county county' : string) (code : Z)
    (combined : list CRow) :
  county_forecast model_predict horizon df county code = Ok (Some combined) ->
  belongs_to county' combined = true -> county' = county.
Proof.
  intros H B. apply county_forecast_rows in H as [Hne Hall].
  destruct combined as [|cr t]; [congruence|].
  unfold belongs_to in B. cbn [forallb] in B.
  apply andb_true_iff in B as [B _].
  inversion Hall as [|? ? Hcr _]; subst. rewrite Hcr in B.
  apply String.eqb_eq in B. congruence.
Qed.

End BatchOutcomes.

(** C5, as stated: a batch over the three sample counties, the second of
    which has two historical rows, does not hold exactly one outcome per
    requested county. *)
Lemma one_outcome_per_entity_counterexample :
  ~ (exists out,
        run_batch three_counties_le (stub_model 20) 3 three_counties_df
                  ["A"; "B"; "C"]%string = Ok out /\
        forall county, In county ["A"; "B"; "C"]%string ->
                       count_outcomes county out = 1%nat).
Proof.
  intros (out & H & Hc).
  specialize (Hc "B"%string (or_intror (or_introl eq_refl))).
  vm_compute in H. injection H as <-.
  vm_compute in Hc. discriminate Hc.
Qed.

(** C5, amended (batch isolation). The batch loop always completes and
    collects combined series only. A county with fewer than 6 historical
    rows contributes no outcome at all; every requested county whose own
    forecast returns a series has that series in the result, whatever
    happens to the other counties; and every collected series is the
    forecast of a requested county with at least 6 rows. *)
Theorem batch_isolation (le_transform : string -> result Z)
    (model_predict : FeatureVector -> result Q) (horizon : nat)
    (df : list DfRow) (counties : list string) :
  exists out,
    run_batch le_transform model_predict horizon df counties = Ok out /\
    (forall county code,
        In county counties -> le_transform county = Ok code ->
        (length (county_frame df code) < 6)%nat ->
        count_outcomes county out = 0%nat) /\
    (forall county code combined,
        In county counties -> le_transform county = Ok code ->
        county_forecast model_predict horizon df county code
          = Ok (Some combined) ->
        In combined out) /\
    (forall combined,
        In combined out ->
        exists county code,
          In county counties /\ le_transform county = Ok code /\
          (6 <= length (county_frame df code))%nat /\
          county_forecast model_predict horizon df county code
            = Ok (Some combined)).
Proof.
  eexists. split; [apply batch_loop_outcomes|]. cbn [app].
  assert (forall combined,
             In combined
                (flat_map (county_outcomes le_transform model_predict
                             horizon df) counties) ->
             exists county code,
               In county counties /\ le_transform county = Ok code /\
               (6 <= length (county_frame df code))%nat /\
               county_forecast model_predict horizon df county code
                 = Ok (Some combined)) as Hsound.
  { intros combined Hin. apply in_flat_map in Hin as (county & Hc & Hin).
    unfold county_outcomes in Hin.
    destruct (le_transform county) as [code|] eqn:El; [|contradiction].
    destruct (county_forecast _ _ _ _ code) as [[c|]|] eqn:Ef;
      try contradiction.
    assert (c = combined) as ->
        by (destruct Hin as [?|[?|[]]]; assumption).
    exists county, code. repeat split; auto.
    now apply county_forecast_inv in Ef as [L _]. }
  split; [|split; [|exact Hsound]].
  - intros county code Hin Hle Hshort. unfold count_outcomes.
    apply length_zero_iff_nil.
    destruct (filter _ _) as [|c t] eqn:E; [reflexivity|].
    assert (In c (c :: t)) as Hc by (left; reflexivity).
    rewrite <- E in Hc. apply filter_In in Hc as [Hc Hb].
    apply Hsound in Hc as (county' & code' & _ & Hle' & L & Hf).
    apply (county_forecast_belongs _ _ _ _ county) in Hf; [|exact Hb].
    subst county'. rewrite Hle in Hle'. injection Hle' as <-. lia.
  - intros county code combined Hin Hle Hf.
    apply in_flat_map. exists county. split; [exact Hin|].
    unfold county_outcomes. rewrite Hle, Hf. left. reflexivity.
Qed.

Lemma batch_isolation_witness :
  exists out,
    run_batch three_counties_le (stub_model 20) 3 three_counties_df
              ["A"; "B"; "C"]%string = Ok out /\
    count_outcomes "B" out = 0%nat /\
    exists combined,
      county_forecast (stub_model 20) 3 three_counties_df "C" 2
        = Ok (Some combined) /\
      In combined out.
Proof.
  destruct (batch_isolation three_counties_le (stub_model 20) 3
              three_counties_df ["A"; "B"; "C"]%string)
    as (out & Hrun & Hskip & Hin & _).
  exists out. split; [exact Hrun|]. split.
  - apply (Hskip "B"%string 1%Z);
      [simpl; auto | reflexivity | vm_compute; lia].
  - assert (exists combined,
               county_forecast (stub_model 20) 3 three_counties_df "C" 2
               = Ok (Some combined))
      as [combined Hc] by (vm_compute; eexists; reflexivity).
    exists combined. split; [exact Hc|].
    apply (Hin "C"%string 2%Z combined);
      [simpl; auto | reflexivity | exact Hc].
Defined.

(** C6, as stated: a county with four historical rows is skipped by the
    batch loop; no forecast is produced for it. *)
Lemma short_history_proceeds_counterexample :
  (3 <= length (county_frame short_df 0) < 6)%nat /\
  run_batch short_le (stub_model 20) forecast_horizon short_df ["D"%string]
    = Ok [] /\
  ~ (exists combined,
        county_forecast (stub_model 20) forecast_horizon short_df "D" 0
        = Ok (Some combined)).
Proof.
  split; [vm_compute; lia|]. split; [reflexivity|].
  intros [combined H]. vm_compute in H. discriminate H.
Qed.

(** C6, amended (short histories). The batch loop skips every county
    with fewer than 6 historical rows, those with 3 to 5 rows included:
    the iteration appends nothing and raises nothing. The single-county
    loop has no such guard: with at least 3 but fewer than 6 rows and a
    model that does not raise it completes the whole horizon, the window
    starts from the available values, and the growth slope is 0 at each
    step that finds fewer than 6 cumulative values and the six-point fit
    afterwards; with 1 or 2 rows the first step raises [IndexError]. *)
Theorem short_history_behaviour (le_transform : string -> result Z)
    (model_predict : FeatureVector -> result Q) (horizon : nat) :
  (forall df county code all_combined,
      le_transform county = Ok code ->
      (length (county_frame df code) < 6)%nat ->
      batch_iteration le_transform model_predict horizon df all_combined county
      = Ok all_combined) /\
  (forall code county_df,
      (3 <= length county_df < 6)%nat ->
      (forall fv, exists pred, model_predict fv = Ok pred) ->
      (exists st,
          single_loop model_predict horizon code county_df = Ok st /\
          length (s_future_rows st) = horizon) /\
      (forall st,
          single_loop model_predict 0 code county_df = Ok st ->
          historical_ev (s_window st) = map EV_Total county_df) /\
      (forall k st mss fv,
          single_loop model_predict k code county_df = Ok st ->
          derive (s_window st) mss code = Ok fv ->
          ((length county_df + k < 6)%nat -> ev_growth_slope fv = 0) /\
          ((6 <= length county_df + k)%nat ->
           ev_growth_slope fv =
             Py.polyfit_slope (Py.range 6) (cumulative_ev (s_window st))))) /\
  (forall code county_df,
      (1 <= length county_df < 3)%nat -> (1 <= horizon)%nat ->
      single_loop model_predict horizon code county_df = Raise IndexError).
Proof.
  split; [|split].
  - intros df county code acc Hle Hshort.
    rewrite batch_iteration_outcomes. unfold county_outcomes, county_forecast.
    rewrite Hle. apply Nat.ltb_lt in Hshort. rewrite Hshort.
    now rewrite app_nil_r.
  - intros code county_df Hlen Hm. split; [|split].
    + destruct (single_loop_total model_predict code horizon county_df Hm)
        as [st Hst]; [lia|].
      exists st. split; [exact Hst|].
      now apply single_loop_lengths in Hst as (_ & _ & ?).
    + unfold single_loop. intros st H.
      destruct (single_init county_df) as [st0|] eqn:Hi; cbn in H;
        [|discriminate].
      injection H as <-. apply single_init_inv in Hi as [-> _].
      cbn [init_window historical_ev]. rewrite last_n_all; [reflexivity|].
      rewrite length_map. lia.
    + intros k st mss fv Hst Hd.
      apply single_loop_lengths in Hst as ([_ Hc] & Hh & _).
      apply derive_inv in Hd as (_ & _ & _ & _ & _ & _ & ->).
      split; intros L.
      * apply growth_slope_short. lia.
      * apply growth_slope_full. lia.
  - intros code county_df Hlen Hh. unfold single_loop.
    destruct (single_init_ok county_df) as (st0 & -> & Hw & _).
    { destruct county_df; [simpl in Hlen; lia | discriminate]. }
    cbn [bind]. destruct horizon as [|n]; [lia|]. cbn [iterate].
    unfold single_step. destruct (s_latest_row st0) as [ly lm].
    rewrite derive_raise; [reflexivity|].
    rewrite Hw, (proj1 (init_window_lengths _)), length_map. lia.
Qed.

Lemma short_history_behaviour_witness :
  batch_iteration short_le (stub_model 20) 3 short_df [] "D" = Ok [] /\
  (exists st,
      single_loop (stub_model 20) 3 0 short_df = Ok st /\
      length (s_future_rows st) = 3%nat) /\
  single_loop (stub_model 20) 3 1 (sample_rows "B" 1 0 [7; 9])
    = Raise IndexError.
Proof.
  destruct (short_history_behaviour short_le (stub_model 20) 3)
    as (H1 & H2 & H3).
  split; [apply (H1 short_df "D"%string 0%Z []);
          [reflexivity | vm_compute; lia]|].
  split.
  - destruct (H2 0%Z short_df) as (H & _);
      [vm_compute; lia | intros fv; eexists; reflexivity | exact H].
  - apply H3; [vm_compute; lia | lia].
Defined.


(** * Properties of the preprocessing *)

(** ** Outlier capping *)

Lemma cap_in_range (lower upper x : Q) :
  lower <= upper ->
  lower <= Outliers.cap lower upper x <= upper.
Proof.
  intros H. unfold Outliers.cap.
  destruct (Qle_bool x upper) eqn:Eu; cbn [negb].
  - destruct (Qle_bool lower x) eqn:El; cbn [negb].
    + apply Qle_bool_iff in Eu, El. split; assumption.
    + split; [apply Qle_refl | exact H].
  - split; [exact H | apply Qle_refl].
Qed.

Lemma in_range_not_outlier (lower upper x : Q) :
  lower <= x <= upper -> Outliers.is_outlier lower upper x = false.
Proof.
  intros [Hl Hu]. unfold Outliers.is_outlier.
  apply Qle_bool_iff in Hl, Hu. now rewrite Hl, Hu.
Qed.

(** X1. With bounds computed from quartiles [Q1 <= Q3], capping leaves
    no outlier in the column (the count printed on line 70 is 0), every
    capped value lies within the bounds, and a value that was not an
    outlier is left as it was. *)
Theorem capping_removes_outliers (Q1 Q3 : Q) (column : list Q) :
  Q1 <= Q3 ->
  Outliers.count_outliers
    (Outliers.lower_bound Q1 Q3) (Outliers.upper_bound Q1 Q3)
    (map (Outliers.cap (Outliers.lower_bound Q1 Q3)
                       (Outliers.upper_bound Q1 Q3)) column) = 0%nat /\
  Forall (fun x => Outliers.lower_bound Q1 Q3 <= x
                   /\ x <= Outliers.upper_bound Q1 Q3)
         (map (Outliers.cap (Outliers.lower_bound Q1 Q3)
                            (Outliers.upper_bound Q1 Q3)) column) /\
  Forall (fun x =>
            Outliers.is_outlier (Outliers.lower_bound Q1 Q3)
                                (Outliers.upper_bound Q1 Q3) x = false ->
            Outliers.cap (Outliers.lower_bound Q1 Q3)
                         (Outliers.upper_bound Q1 Q3) x = x)
         column.
Proof.
  intros H.
  assert (Outliers.lower_bound Q1 Q3 <= Outliers.upper_bound Q1 Q3) as Hb
    by (unfold Outliers.lower_bound, Outliers.upper_bound; lra).
  set (lower := Outliers.lower_bound Q1 Q3) in *.
  set (upper := Outliers.upper_bound Q1 Q3) in *.
  split; [|split].
  - unfold Outliers.count_outliers.
    induction column as [|x t IH]; [reflexivity|]. cbn [map filter].
    rewrite in_range_not_outlier by now apply cap_in_range. exact IH.
  - apply Forall_map, Forall_forall. intros x _. now apply cap_in_range.
  - apply Forall_forall. intros x _ Hx.
    unfold Outliers.is_outlier in Hx. apply orb_false_iff in Hx as [Hl Hu].
    unfold Outliers.cap. now rewrite Hu, Hl.
Qed.

Lemma capping_removes_outliers_witness :
  (1#2) <= (3#2) /\
  Outliers.count_outliers
    (Outliers.lower_bound (1#2) (3#2)) (Outliers.upper_bound (1#2) (3#2))
    (map (Outliers.cap (Outliers.lower_bound (1#2) (3#2))
                       (Outliers.upper_bound (1#2) (3#2)))
         [0; 1; 7; -4; 3]) = 0%nat.
Proof.
  split; [discriminate|].
  apply (capping_removes_outliers (1#2) (3#2) [0; 1; 7; -4; 3]).
  discriminate.
Defined.

(** ** Distinct values and the label encoder *)

Lemma unique_In (l : list string) (x : string) :
  In x (Pd.unique l) <-> In x l.
Proof.
  induction l as [|y t IH]; cbn [Pd.unique]; [reflexivity|].
  cbn [In]. rewrite filter_In, IH.
  destruct (String.eqb_spec y x) as [->|N]; cbn [negb].
  - intuition congruence.
  - intuition congruence.
Qed.

Lemma unique_NoDup (l : list string) : NoDup (Pd.unique l).
Proof.
  induction l as [|y t IH]; cbn [Pd.unique]; constructor.
  - rewrite filter_In. intros [_ H]. now rewrite String.eqb_refl in H.
  - now apply NoDup_filter.
Qed.

Lemma fit_In (y : list string) (c : string) :
  In c (LabelEncoder.fit y) <-> In c y.
Proof.
  unfold LabelEncoder.fit. split; intros H.
  - apply unique_In. revert H.
    apply Permutation_in. symmetry. apply sort_values_perm.
  - apply unique_In in H. revert H.
    apply Permutation_in. apply sort_values_perm.
Qed.

Lemma index_of_Some (classes : list string) (c : string) (i : nat) :
  LabelEncoder.index_of c classes = Some i -> nth_error classes i = Some c.
Proof.
  revert i. induction classes as [|x t IH]; intros i H; cbn in H;
    [discriminate|].
  destruct (String.eqb_spec x c) as [->|N].
  - injection H as <-. reflexivity.
  - destruct (LabelEncoder.index_of c t) as [j|]; [|discriminate].
    injection H as <-. cbn. now apply IH.
Qed.

Lemma index_of_None (classes : list string) (c : string) :
  LabelEncoder.index_of c classes = None <-> ~ In c classes.
Proof.
  induction classes as [|x t IH]; cbn; [tauto|].
  destruct (String.eqb_spec x c) as [->|N].
  - split; [discriminate | tauto].
  - destruct (LabelEncoder.index_of c t) as [j|]; cbn.
    + split; [discriminate|]. intros H. exfalso. apply H. right.
      destruct (in_dec string_dec c t) as [I|I]; [exact I|].
      apply IH in I. discriminate.
    + split; [|reflexivity]. intros _ [E|I]; [congruence|].
      now apply (proj1 IH).
Qed.

Lemma transform_all_fitted (classes l : list string) :
  (forall c, In c l -> In c classes) ->
  exists codes,
    LabelEncoder.transform_all classes l = Ok codes /\
    Forall2 (fun c code =>
               (0 <= code)%Z /\
               nth_error classes (Z.to_nat code) = Some c) l codes.
Proof.
  induction l as [|c t IH]; intros Hin; cbn [LabelEncoder.transform_all].
  - exists []. split; [reflexivity | constructor].
  - destruct IH as (codes & -> & F); [intros; apply Hin; now right|].
    unfold LabelEncoder.transform.
    destruct (LabelEncoder.index_of c classes) as [i|] eqn:E.
    + cbn [bind]. eexists. split; [reflexivity|]. constructor; [|exact F].
      split; [lia|]. rewrite Nat2Z.id. now apply index_of_Some.
    + apply index_of_None in E. exfalso. apply E, Hin. now left.
Qed.

(** X2. Encoding the column the encoder was fitted on never fails, and
    each code is the position of its label in [classes_]: looking the
    code up gives the label back. *)
Theorem fit_transform_round_trip (y : list string) :
  exists codes,
    LabelEncoder.fit_transform y = Ok codes /\
    Forall2 (fun c code =>
               (0 <= code)%Z /\
               nth_error (LabelEncoder.fit y) (Z.to_nat code) = Some c)
            y codes.
Proof.
  unfold LabelEncoder.fit_transform.
  apply transform_all_fitted. intros c Hc. now apply fit_In.
Qed.

(** X3. [transform] raises [ValueError] exactly for the labels that were
    not in the fitted column, which is what the guard of lines 293-298
    relies on. *)
Theorem transform_unseen_label (y : list string) (c : string) :
  LabelEncoder.transform (LabelEncoder.fit y) c = Raise ValueError <->
  ~ In c y.
Proof.
  rewrite <- fit_In, <- index_of_None. unfold LabelEncoder.transform.
  destruct (LabelEncoder.index_of c (LabelEncoder.fit y));
    split; intros H; congruence.
Qed.

Lemma transform_unseen_label_witness :
  LabelEncoder.transform (LabelEncoder.fit ["Kings"; "Ada"; "Kings"]%string)
                         "Pierce" = Raise ValueError /\
  LabelEncoder.transform (LabelEncoder.fit ["Kings"; "Ada"; "Kings"]%string)
                         "Kings" <> Raise ValueError.
Proof.
  split.
  - apply (proj2 (transform_unseen_label
                    ["Kings"; "Ada"; "Kings"]%string "Pierce")).
    intros [H|[H|[H|[]]]]; discriminate H.
  - intros H.
    apply (proj1 (transform_unseen_label
                    ["Kings"; "Ada"; "Kings"]%string "Kings")) in H.
    apply H. left. reflexivity.
Defined.

Lemma transform_injective (classes : list string) (a b : string) (code : Z) :
  LabelEncoder.transform classes a = Ok code ->
  LabelEncoder.transform classes b = Ok code ->
  a = b.
Proof.
  unfold LabelEncoder.transform. intros Ha Hb.
  destruct (LabelEncoder.index_of a classes) as [i|] eqn:Ea; [|discriminate].
  destruct (LabelEncoder.index_of b classes) as [j|] eqn:Eb; [|discriminate].
  injection Ha as Ha. injection Hb as Hb.
  assert (i = j) as -> by lia.
  apply index_of_Some in Ea, Eb. congruence.
Qed.




(** ** The per-county time index *)

Lemma cumcount_from_group (seen keys : list string) (c : string) :
  map snd (filter (fun p => String.eqb (fst p) c)
                  (combine keys (cumcount_from seen keys)))
  = map Z.of_nat (seq (count_occ string_dec seen c)
                      (count_occ string_dec keys c)).
Proof.
  revert seen. induction keys as [|k t IH]; intros seen; [reflexivity|].
  cbn [cumcount_from combine filter fst].
  destruct (String.eqb_spec k c) as [->|N].
  - cbn [map snd]. rewrite IH. rewrite !count_occ_cons_eq by reflexivity.
    reflexivity.
  - rewrite IH. rewrite !count_occ_cons_neq by exact N. reflexivity.
Qed.

(** X5. Within each county, taken in frame order, [months_since_start]
    counts 0, 1, 2, ... without gaps, whatever rows of other counties
    lie in between. *)
Theorem cumcount_counts_within_group (keys : list string) (c : string) :
  map snd (filter (fun p => String.eqb (fst p) c)
                  (combine keys (cumcount keys)))
  = map Z.of_nat (seq 0 (count_occ string_dec keys c)).
Proof. apply (cumcount_from_group [] keys c). Qed.

(** ** Training features *)

Lemma nth_error_shift (k : nat) (x : list (option Q)) (i : nat) :
  (i < length x)%nat ->
  nth_error (Train.shift k x) i =
  Some (if (i <? k)%nat then None else nth (i - k) x None).
Proof.
  intros H. unfold Train.shift.
  rewrite nth_error_map, nth_error_seq.
  destruct (Nat.ltb_spec i (length x)); [reflexivity | lia].
Qed.

Lemma length_shift (k : nat) (x : list (option Q)) :
  length (Train.shift k x) = length x.
Proof. unfold Train.shift. now rewrite length_map, length_seq. Qed.

Lemma cell_at_shift (k : nat) (v : list Q) (i : nat) :
  Train.cell_at (Train.shift k (map Some v)) i =
  if ((k <=? i) && (i <? length v))%nat then Some (nth (i - k) v 0) else None.
Proof.
  unfold Train.cell_at.
  destruct (Nat.ltb_spec i (length v)) as [L|L].
  - rewrite nth_error_shift by now rewrite length_map.
    destruct (Nat.leb_spec k i) as [K|K]; cbn [andb].
    + destruct (Nat.ltb_spec i k); [lia|].
      rewrite (nth_indep _ None (Some 0)) by (rewrite length_map; lia).
      now rewrite map_nth.
    + destruct (Nat.ltb_spec i k); [reflexivity | lia].
  - rewrite andb_false_r.
    destruct (nth_error _ i) eqn:E; [|reflexivity].
    assert (i < length (Train.shift k (map Some v)))%nat
      by (apply nth_error_Some; congruence).
    rewrite length_shift, length_map in *. lia.
Qed.

Lemma firstn_3_skipn {A : Type} (j : nat) (x : list A) (d : A) :
  (j + 3 <= length x)%nat ->
  firstn 3 (skipn j x) = [nth j x d; nth (j + 1) x d; nth (j + 2) x d].
Proof.
  revert x. induction j as [|j IH]; intros x H.
  - destruct x as [|a [|b [|c t]]]; simpl in H; try lia. reflexivity.
  - destruct x as [|a t]; simpl in H; [lia|]. cbn [skipn Nat.add nth].
    apply IH. lia.
Qed.

Lemma nth_shift_1 (v : list Q) (i : nat) :
  (1 <= i < length v)%nat ->
  nth i (Train.shift 1 (map Some v)) None = Some (nth (i - 1) v 0).
Proof.
  intros H.
  pose proof (nth_error_shift 1 (map Some v) i) as E.
  rewrite length_map in E. specialize (E (proj2 H)).
  apply nth_error_nth with (d := None) in E. rewrite E.
  destruct (Nat.ltb_spec i 1); [lia|].
  rewrite (nth_indep _ None (Some 0)) by (rewrite length_map; lia).
  now rewrite map_nth.
Qed.

Lemma cell_at_rolling_mean (v : list Q) (i : nat) :
  Train.cell_at (Train.rolling_mean 3 (Train.shift 1 (map Some v))) i =
  if ((3 <=? i) && (i <? length v))%nat
  then Some (Py.mean [nth (i - 3) v 0; nth (i - 2) v 0; nth (i - 1) v 0])
  else None.
Proof.
  unfold Train.cell_at, Train.rolling_mean.
  rewrite nth_error_map, nth_error_seq, length_shift, length_map.
  destruct (Nat.ltb_spec i (length v)) as [L|L];
    [|rewrite andb_false_r; reflexivity].
  cbn [option_map Nat.add]. rewrite andb_true_r.
  destruct (Nat.ltb_spec (i + 1) 3) as [S|S].
  - destruct (Nat.leb_spec 3 i); [lia | reflexivity].
  - rewrite (firstn_3_skipn _ _ None)
      by (rewrite length_shift, length_map; lia).
    destruct (Nat.leb_spec 3 i) as [K|K].
    + rewrite !nth_shift_1 by lia. cbn [Train.all_present option_map].
      replace (i + 1 - 3 - 1)%nat with (i - 3)%nat by lia.
      replace (i + 1 - 3 + 1 - 1)%nat with (i - 2)%nat by lia.
      replace (i + 1 - 3 + 2 - 1)%nat with (i - 1)%nat by lia.
      reflexivity.
    + assert (i = 2)%nat as -> by lia. cbn [Nat.add Nat.sub].
      pose proof (nth_error_shift 1 (map Some v) 0) as E.
      rewrite length_map in E. specialize (E ltac:(lia)).
      apply nth_error_nth with (d := None) in E. rewrite E. reflexivity.
Qed.

Lemma length_pct_change (k : nat) (v : list Q) :
  length (Train.pct_change k v) = length v.
Proof.
  unfold Train.pct_change.
  rewrite length_map, length_combine, length_shift, length_map. lia.
Qed.

Lemma nth_error_pct_change (k : nat) (v : list Q) (i : nat) :
  (k <= i < length v)%nat ->
  nth_error (Train.pct_change k v) i =
  Some (if Qeq_bool (nth (i - k) v 0) 0
        then (if Qeq_bool (nth i v 0) 0 then Train.NaN else Train.Inf)
        else Train.Num (nth i v 0 / nth (i - k) v 0 - 1)).
Proof.
  intros H. unfold Train.pct_change. rewrite nth_error_map.
  assert (nth_error (combine v (Train.shift k (map Some v))) i =
          Some (nth i v 0, Some (nth (i - k) v 0))) as ->.
  { pose proof (nth_error_shift k (map Some v) i) as E.
    rewrite length_map in E. specialize (E (proj2 H)).
    destruct (Nat.ltb_spec i k); [lia|].
    rewrite (nth_indep _ None (Some 0)) in E by (rewrite length_map; lia).
    rewrite map_nth in E.
    assert (nth_error v i = Some (nth i v 0)) as Ev
      by (apply nth_error_nth'; lia).
    revert E Ev. generalize (Train.shift k (map Some v)).
    generalize (nth i v 0). generalize (Some (nth (i - k) v 0)).
    clear. revert i. induction v as [|a t IH]; intros i o q l E Ev.
    - destruct i; discriminate.
    - destruct l as [|b l]; [destruct i; discriminate|].
      destruct i as [|i]; cbn in *.
      + congruence.
      + now apply IH. }
  reflexivity.
Qed.

Lemma training_growth_slope_defined (v : list Q) (i : nat) :
  training_growth_slope v i <> None <-> (5 <= i < length v)%nat.
Proof.
  unfold training_growth_slope, rolling.
  destruct (Nat.ltb_spec (i + 1) 6) as [S|S]; [split; [congruence | lia]|].
  rewrite length_firstn, length_skipn, length_cumsum.
  destruct (Nat.eqb_spec (Nat.min 6 (length v - (i + 1 - 6))) 6) as [E|E].
  - split; [lia | discriminate].
  - split; [congruence | lia].
Qed.

(** X6. [dropna] (line 165) removes exactly the first five rows of every
    county: row [i] of a county reaches the model if and only if
    [5 <= i]; the 6-point growth slope is the last feature to become
    available. *)
Theorem dropna_keeps_rows_from_fifth (county_code : Z) (ev_total : list Q)
    (i : nat) :
  Train.training_row county_code ev_total i <> None <->
  (5 <= i < length ev_total)%nat.
Proof.
  unfold Train.training_row.
  rewrite !cell_at_shift, cell_at_rolling_mean.
  destruct (Nat.ltb_spec i (length ev_total)) as [L|L].
  - rewrite !andb_true_r.
    destruct (Nat.le_gt_cases 5 i) as [K|K].
    + destruct (Nat.leb_spec 1 i); [|lia].
      destruct (Nat.leb_spec 2 i); [|lia].
      destruct (Nat.leb_spec 3 i); [|lia].
      rewrite !nth_error_pct_change by lia.
      destruct (training_growth_slope ev_total i) eqn:E.
      * split; [lia | discriminate].
      * exfalso. apply (proj2 (training_growth_slope_defined ev_total i));
          [lia | exact E].
    + split; [|lia]. intros H. exfalso. apply H.
      destruct (training_growth_slope ev_total i) eqn:E.
      * exfalso. assert (5 <= i < length ev_total)%nat; [|lia].
        apply training_growth_slope_defined. congruence.
      * repeat match goal with
               | |- context [match ?x with _ => _ end] => destruct x
               end; reflexivity.
  - rewrite !andb_false_r. split; [congruence | lia].
Qed.

Lemma dropna_keeps_rows_from_fifth_witness :
  Train.training_row 0 [1; 2; 3; 4; 5; 6; 7] 4 = None /\
  Train.training_row 0 [1; 2; 3; 4; 5; 6; 7] 5 <> None.
Proof.
  split.
  - destruct (Train.training_row 0 [1; 2; 3; 4; 5; 6; 7] 4) eqn:E;
      [|reflexivity].
    assert (5 <= 4 < 7)%nat; [|lia].
    apply (dropna_keeps_rows_from_fifth 0 [1; 2; 3; 4; 5; 6; 7] 4).
    congruence.
  - apply (dropna_keeps_rows_from_fifth 0 [1; 2; 3; 4; 5; 6; 7] 5).
    cbn. lia.
Defined.

(** ** Inference features against training features *)

Lemma lag_of_tail (w : Window) (s : list Q) (k : nat) :
  historical_ev w = Py.last_n 6 s ->
  (1 <= k <= 6)%nat -> (k <= length s)%nat ->
  lag w k = nth (length s - k) s 0.
Proof.
  intros Hw Hk Hs. unfold lag. rewrite Hw, length_last_n.
  unfold Py.last_n. rewrite nth_skipn. f_equal. lia.
Qed.

Lemma derive_on_tail (w : Window) (s : list Q) (mss code : Z)
    (fv : FeatureVector) :
  historical_ev w = Py.last_n 6 s ->
  derive w mss code = Ok fv ->
  (3 <= length s)%nat /\
  ev_total_lag1 fv = nth (length s - 1) s 0 /\
  ev_total_lag2 fv = nth (length s - 2) s 0 /\
  ev_total_lag3 fv = nth (length s - 3) s 0 /\
  ev_total_roll_mean_3 fv =
    Py.mean [nth (length s - 1) s 0; nth (length s - 2) s 0;
             nth (length s - 3) s 0] /\
  ev_total_pct_change_1 fv =
    (if Qeq_bool (nth (length s - 2) s 0) 0 then 0
     else (nth (length s - 1) s 0 - nth (length s - 2) s 0)
          / nth (length s - 2) s 0) /\
  ev_total_pct_change_3 fv =
    (if Qeq_bool (nth (length s - 3) s 0) 0 then 0
     else (nth (length s - 1) s 0 - nth (length s - 3) s 0)
          / nth (length s - 3) s 0).
Proof.
  intros Hw Hd.
  assert (3 <= length (historical_ev w))%nat as H3
    by now apply derive_inv in Hd.
  rewrite derive_ok in Hd by exact H3. injection Hd as <-. cbn.
  rewrite Hw, length_last_n in H3.
  rewrite !(lag_of_tail w s) by (assumption || lia).
  repeat split; lia || reflexivity.
Qed.

(** X7. Whenever the buffer holds the tail of a series [s] (history
    followed by the predictions made so far), the lags and the rolling
    mean handed to the model are the training-time features of the row
    that would follow [s]: [shift(1)], [shift(2)], [shift(3)] and
    [shift(1).rolling(3).mean()] at that row, whatever its target value
    [y] is. *)
Theorem inference_lags_match_training (county_code : Z) (s : list Q) (y : Q)
    (w : Window) (mss : Z) (fv tr : FeatureVector) :
  historical_ev w = Py.last_n 6 s ->
  derive w mss county_code = Ok fv ->
  Train.training_row county_code (s ++ [y]) (length s) = Some tr ->
  ev_total_lag1 tr = ev_total_lag1 fv /\
  ev_total_lag2 tr = ev_total_lag2 fv /\
  ev_total_lag3 tr = ev_total_lag3 fv /\
  ev_total_roll_mean_3 tr == ev_total_roll_mean_3 fv.
Proof.
  intros Hw Hd Ht.
  apply (derive_on_tail w s) in Hd as (H3 & -> & -> & -> & -> & _);
    [|exact Hw].
  unfold Train.training_row in Ht.
  rewrite !cell_at_shift, cell_at_rolling_mean in Ht.
  rewrite length_app in Ht. cbn [length] in Ht.
  destruct (Nat.leb_spec 1 (length s)); [|lia].
  destruct (Nat.leb_spec 2 (length s)); [|lia].
  destruct (Nat.leb_spec 3 (length s)); [|lia].
  destruct (Nat.ltb_spec (length s) (length s + 1)); [|lia].
  cbn [andb] in Ht.
  destruct (nth_error (Train.pct_change 1 _) _); [|discriminate].
  destruct (nth_error (Train.pct_change 3 _) _); [|discriminate].
  destruct (training_growth_slope _ _); [|discriminate].
  injection Ht as <-. cbn.
  rewrite !app_nth1 by lia.
  repeat split. unfold Py.mean, Py.sum. cbn [fold_left length].
  field.
Qed.

Lemma inference_lags_match_training_witness :
  exists fv tr,
    derive (init_window [3; 1; 4; 1; 5; 9; 2]) 7 0 = Ok fv /\
    Train.training_row 0 ([3; 1; 4; 1; 5; 9; 2] ++ [6]) 7 = Some tr /\
    ev_total_lag1 tr = ev_total_lag1 fv /\
    ev_total_roll_mean_3 tr == ev_total_roll_mean_3 fv.
Proof.
  eexists. eexists. split; [reflexivity|]. split; [reflexivity|].
  destruct (inference_lags_match_training 0 [3; 1; 4; 1; 5; 9; 2] 6
              (init_window [3; 1; 4; 1; 5; 9; 2]) 7 _ _
              eq_refl eq_refl eq_refl) as (H1 & _ & _ & H4).
  split; [exact H1 | exact H4].
Defined.



(** ** What the buffers contain during a run *)

Lemma tl_skipn {A : Type} (j : nat) (s : list A) :
  tl (skipn j s) = skipn (S j) s.
Proof.
  revert j. induction s as [|a t IH]; intros j.
  - destruct j; reflexivity.
  - destruct j as [|j]; [reflexivity|]. cbn [skipn]. rewrite IH.
    reflexivity.
Qed.

Lemma evict_last_n_snoc (s : list Q) (p : Q) :
  evict (Py.last_n 6 s ++ [p]) = Py.last_n 6 (s ++ [p]).
Proof.
  unfold evict. rewrite length_app, length_last_n. cbn [length].
  unfold Py.last_n, Py.pop0. rewrite length_app. cbn [length].
  destruct (Nat.le_gt_cases (length s) 5) as [L|L].
  - replace (length s - 6)%nat with O by lia.
    replace (length s + 1 - 6)%nat with O by lia.
    destruct (Nat.ltb_spec 6 (Nat.min 6 (length s) + 1)); [lia|].
    reflexivity.
  - destruct (Nat.ltb_spec 6 (Nat.min 6 (length s) + 1)); [|lia].
    rewrite skipn_app.
    replace (length s + 1 - 6 - length s)%nat with O by lia.
    replace (length s + 1 - 6)%nat with (S (length s - 6)) by lia.
    rewrite <- tl_skipn. cbn [skipn].
    destruct (skipn (length s - 6) s) eqn:E; [|reflexivity].
    apply (f_equal (@length Q)) in E. rewrite length_skipn in E.
    simpl in E. lia.
Qed.

Lemma nth_tl {A : Type} (l : list A) (i : nat) (d : A) :
  nth i (tl l) d = nth (S i) l d.
Proof. destruct l; [destruct i; reflexivity | reflexivity]. Qed.

Lemma cumsum_from_consistent (h : list Q) (a : Q) (i : nat) :
  (S i < length h)%nat ->
  nth (S i) (Py.cumsum_from a h) 0 ==
  nth i (Py.cumsum_from a h) 0 + nth (S i) h 0.
Proof.
  revert a i. induction h as [|x t IH]; intros a i H; [simpl in H; lia|].
  cbn [Py.cumsum_from]. destruct i as [|i].
  - destruct t as [|y t']; [simpl in H; lia|]. reflexivity.
  - cbn [nth]. apply IH. simpl in H. lia.
Qed.

Lemma init_window_consistent (values : list Q) :
  cumulative_consistent (init_window values).
Proof.
  unfold cumulative_consistent, init_window. cbn [historical_ev cumulative_ev].
  split; [apply length_cumsum|].
  intros i H. rewrite length_cumsum in H. now apply cumsum_from_consistent.
Qed.

Lemma evict_consistent (h c : list Q) :
  cumulative_consistent {| historical_ev := h; cumulative_ev := c |} ->
  cumulative_consistent
    {| historical_ev := evict h; cumulative_ev := evict c |}.
Proof.
  unfold cumulative_consistent. cbn [historical_ev cumulative_ev].
  intros [Hl Hc]. unfold evict. rewrite Hl.
  destruct (6 <? length h)%nat; [|split; assumption].
  unfold Py.pop0. split.
  - destruct h, c; simpl in *; lia.
  - intros i Hi. rewrite !nth_tl. apply Hc.
    destruct c; simpl in *; lia.
Qed.

Lemma push_consistent (w w' : Window) (pred : Q) :
  cumulative_consistent w -> push w pred = Ok w' ->
  cumulative_consistent w'.
Proof.
  intros [Hl Hc] H.
  assert (cumulative_ev w <> []) as Hne
    by (intros E; rewrite push_empty in H by exact E; discriminate).
  rewrite push_ok in H by exact Hne. injection H as <-.
  apply evict_consistent.
  unfold cumulative_consistent. cbn [historical_ev cumulative_ev].
  rewrite !length_app, Hl. cbn [length]. split; [reflexivity|].
  intros i Hi.
  assert (0 < length (cumulative_ev w))%nat
    by (destruct (cumulative_ev w); [congruence | simpl; lia]).
  destruct (Nat.lt_ge_cases (S i) (length (cumulative_ev w))) as [L|L].
  - rewrite !app_nth1 by lia. now apply Hc.
  - assert (S i = length (cumulative_ev w)) as E by lia.
    rewrite (app_nth2 (cumulative_ev w)) by lia.
    rewrite (app_nth1 (cumulative_ev w)) by lia.
    rewrite (app_nth2 (historical_ev w)) by lia.
    rewrite E, <- Hl, Nat.sub_diag. cbn [nth].
    replace (length (cumulative_ev w) - 1)%nat with i by lia.
    reflexivity.
Qed.

Section SingleBuffers.

Variable model_predict : FeatureVector -> result Q.
Variable county_code : Z.

Lemma single_loop_window_facts (n : nat) (county_df : list DfRow)
    (st : SingleState) :
  single_loop model_predict n county_code county_df = Ok st ->
  historical_ev (s_window st) =
    Py.last_n 6 (map EV_Total county_df
                 ++ map r_EV_Total (s_future_rows st)) /\
  cumulative_consistent (s_window st).
Proof.
  unfold single_loop. intros H.
  destruct (single_init county_df) as [st0|] eqn:Hi; cbn [bind] in H;
    [|discriminate].
  apply single_init_inv in Hi as [Hw Hr].
  refine (iterate_invariant
            (fun s => historical_ev (s_window s) =
                        Py.last_n 6 (map EV_Total county_df
                                     ++ map r_EV_Total (s_future_rows s)) /\
                      cumulative_consistent (s_window s))
            (single_step model_predict county_code) _ n st0 st _ H).
  - intros s s' [Hs Hc] Hstep.
    apply single_step_inv in Hstep as (fv & pred & _ & _ & Hp & _ & ->).
    split; [|eapply push_consistent; eauto].
    apply push_inv in Hp as [-> _].
    rewrite Hs, evict_last_n_snoc, map_app, app_assoc. reflexivity.
  - split; [|rewrite Hw; apply init_window_consistent].
    rewrite Hw, Hr, app_nil_r. reflexivity.
Qed.

(** X9. At every point of a single-county run [historical_ev] is the
    last six entries of the historical EV column followed by the
    predictions emitted so far: each prediction is fed back as if it had
    been observed. *)
Theorem buffer_is_tail_of_series (n : nat) (county_df : list DfRow)
    (st : SingleState) :
  single_loop model_predict n county_code county_df = Ok st ->
  historical_ev (s_window st) =
  Py.last_n 6 (map EV_Total county_df
               ++ map r_EV_Total (s_future_rows st)).
Proof.
  intros H. apply single_loop_window_facts in H as [Htail _]. exact Htail.
Qed.

(** X10. At every point of a single-county run the two buffers agree:
    they have the same length, and each cumulative value is the previous
    one plus the EV count buffered at the same position. *)
Theorem buffers_stay_consistent (n : nat) (county_df : list DfRow)
    (st : SingleState) :
  single_loop model_predict n county_code county_df = Ok st ->
  cumulative_consistent (s_window st).
Proof.
  intros H. apply single_loop_window_facts in H as [_ Hcons]. exact Hcons.
Qed.

End SingleBuffers.

Lemma buffer_is_tail_of_series_witness :
  exists st,
    single_loop (stub_model 20) 2 0 kings_df = Ok st /\
    historical_ev (s_window st) =
    Py.last_n 6 (map EV_Total kings_df ++ map r_EV_Total (s_future_rows st)).
Proof.
  assert (exists st, single_loop (stub_model 20) 2 0 kings_df = Ok st)
    as [st H] by (vm_compute; eexists; reflexivity).
  exists st. split; [exact H|].
  exact (buffer_is_tail_of_series (stub_model 20) 0 2 kings_df st H).
Defined.

Lemma buffers_stay_consistent_witness :
  exists st,
    single_loop (stub_model 20) 2 0 kings_df = Ok st /\
    cumulative_consistent (s_window st).
Proof.
  assert (exists st, single_loop (stub_model 20) 2 0 kings_df = Ok st)
    as [st H] by (vm_compute; eexists; reflexivity).
  exists st. split; [exact H|].
  exact (buffers_stay_consistent (stub_model 20) 0 2 kings_df st H).
Defined.





(** ** The single-county script *)

Lemma days_in_month_bounds (y m : Z) : (28 <= days_in_month y m <= 31)%Z.
Proof.
  unfold days_in_month.
  destruct (m =? 2)%Z; [destruct (is_leap_year y); lia|].
  destruct ((m =? 4) || (m =? 6) || (m =? 9) || (m =? 11))%Z; lia.
Qed.

Lemma year_month_round_trip (d : Timestamp) :
  (year d * 12 + (month d - 1) = month_count d)%Z.
Proof.
  unfold year, month. pose proof (Z.div_mod (month_count d) 12). lia.
Qed.

Lemma to_datetime_of_fields (d : Timestamp) :
  month_count (to_datetime (year d) (month d) 1) = month_count d.
Proof. cbn [to_datetime month_count]. apply year_month_round_trip. Qed.

Section SingleRows.

Variable model_predict : FeatureVector -> result Q.
Variable county_code : Z.

Lemma single_step_rows (base : Z) (mss0 : Z) (s s' : SingleState) :
  single_step model_predict county_code s = Ok s' ->
  (fst (s_latest_row s) * 12 + (snd (s_latest_row s) - 1)
   = base + Z.of_nat (length (s_future_rows s)))%Z ->
  s_months_since_start s = (mss0 + Z.of_nat (length (s_future_rows s)))%Z ->
  (fst (s_latest_row s') * 12 + (snd (s_latest_row s') - 1)
   = base + Z.of_nat (length (s_future_rows s')))%Z /\
  s_months_since_start s' = (mss0 + Z.of_nat (length (s_future_rows s')))%Z /\
  exists r,
    s_future_rows s' = s_future_rows s ++ [r] /\
    month_count (r_Date r)
      = (base + Z.of_nat (length (s_future_rows s)) + 1)%Z /\
    day (r_Date r) = 1%Z /\
    r_months_since_start r
      = (mss0 + Z.of_nat (length (s_future_rows s)) + 1)%Z /\
    r_Source r = Forecast.
Proof.
  intros Hstep Hl Hm.
  pose proof Hstep as Hinv.
  apply single_step_inv in Hinv as (fv & pred & Hd & Hp & Hw & _ & _).
  rewrite (single_step_ok _ _ _ _ _ _ Hd Hp Hw) in Hstep.
  injection Hstep as <-.
  cbn [s_latest_row s_months_since_start s_future_rows fst snd].
  rewrite length_app. cbn [length].
  assert (month_count (single_next_date s)
          = base + Z.of_nat (length (s_future_rows s)) + 1)%Z as Hmc.
  { unfold single_next_date. cbn [DateOffset_months to_datetime month_count].
    lia. }
  split; [rewrite year_month_round_trip; lia|]. split; [lia|].
  eexists. split; [reflexivity|]. cbn.
  split; [exact Hmc|]. split; [|split; [lia | reflexivity]].
  pose proof (days_in_month_bounds
                ((fst (s_latest_row s) * 12 + (snd (s_latest_row s) - 1) + 1)
                 / 12)
                ((fst (s_latest_row s) * 12 + (snd (s_latest_row s) - 1) + 1)
                 mod 12 + 1)).
  lia.
Qed.

Lemma single_loop_rows (n : nat) (county_df : list DfRow)
    (st : SingleState) :
  single_loop model_predict n county_code county_df = Ok st ->
  exists mss0 latest_row,
    Pd.max_Z (map months_since_start county_df) = Some mss0 /\
    nth_error (rev county_df) 0 = Some latest_row /\
    length (s_future_rows st) = n /\
    forall i r,
      nth_error (s_future_rows st) i = Some r ->
      month_count (r_Date r)
        = (month_count (Date latest_row) + Z.of_nat i + 1)%Z /\
      day (r_Date r) = 1%Z /\
      r_months_since_start r = (mss0 + Z.of_nat i + 1)%Z /\
      r_Source r = Forecast.
Proof.
  intros H. pose proof (single_loop_lengths _ _ _ _ _ H) as (_ & _ & Hn).
  revert H. unfold single_loop, single_init.
  destruct (Pd.max_Z _) as [mss0|]; [|discriminate].
  destruct (nth_error (rev county_df) 0) as [latest|]; [|discriminate].
  cbn [bind]. intros H.
  exists mss0, latest. split; [reflexivity|]. split; [reflexivity|].
  split; [exact Hn|].
  refine (proj2 (proj2
    (iterate_invariant
       (fun s =>
          (fst (s_latest_row s) * 12 + (snd (s_latest_row s) - 1)
           = month_count (Date latest)
             + Z.of_nat (length (s_future_rows s)))%Z /\
          s_months_since_start s
            = (mss0 + Z.of_nat (length (s_future_rows s)))%Z /\
          forall i r,
            nth_error (s_future_rows s) i = Some r ->
            month_count (r_Date r)
              = (month_count (Date latest) + Z.of_nat i + 1)%Z /\
            day (r_Date r) = 1%Z /\
            r_months_since_start r = (mss0 + Z.of_nat i + 1)%Z /\
            r_Source r = Forecast)
       (single_step model_predict county_code) _ n _ st _ H))).
  - intros s s' (Hl & Hm & Hrows) Hstep.
    destruct (single_step_rows _ _ _ _ Hstep Hl Hm)
      as (Hl' & Hm' & r & Er & Hr).
    split; [exact Hl'|]. split; [exact Hm'|].
    rewrite Er. intros i r' Hi.
    destruct (Nat.lt_ge_cases i (length (s_future_rows s))) as [L|L].
    + rewrite nth_error_app1 in Hi by exact L. now apply Hrows.
    + rewrite nth_error_app2 in Hi by exact L.
      destruct (i - length (s_future_rows s))%nat as [|k] eqn:E;
        [|destruct k; discriminate].
      cbn in Hi. injection Hi as <-.
      replace i with (length (s_future_rows s)) by lia. exact Hr.
  - cbn [s_latest_row s_months_since_start s_future_rows fst snd length].
    split; [rewrite year_month_round_trip; lia|]. split; [lia|].
    intros [|i] r Hi; discriminate.
Qed.

(** X12. A single-county run of [n] steps emits exactly [n] forecast
    rows; row [i] is dated the first day of the month that lies [i + 1]
    months after the month of the latest historical row, and its
    [months_since_start] is the largest historical one plus [i + 1]. *)
Theorem single_forecast_rows (n : nat) (county_df : list DfRow)
    (st : SingleState) :
  single_loop model_predict n county_code county_df = Ok st ->
  exists mss0 latest_row,
    Pd.max_Z (map months_since_start county_df) = Some mss0 /\
    nth_error (rev county_df) 0 = Some latest_row /\
    length (s_future_rows st) = n /\
    forall i r,
      nth_error (s_future_rows st) i = Some r ->
      month_count (r_Date r)
        = (month_count (Date latest_row) + Z.of_nat i + 1)%Z /\
      day (r_Date r) = 1%Z /\
      r_months_since_start r = (mss0 + Z.of_nat i + 1)%Z /\
      r_Source r = Forecast.
Proof.
  intros H. destruct (single_loop_rows n county_df st H)
    as (mss0 & latest & Hm & Hl & Hn & Hrows).
  exists mss0, latest. repeat (split; [assumption|]). exact Hrows.
Qed.

End SingleRows.

Lemma single_forecast_rows_witness :
  exists st r,
    single_loop (stub_model 20) 3 0 kings_df = Ok st /\
    nth_error (s_future_rows st) 2 = Some r /\
    year (r_Date r) = 2023%Z /\ month (r_Date r) = 9%Z /\
    day (r_Date r) = 1%Z /\ r_months_since_start r = 8%Z.
Proof.
  assert (exists st, single_loop (stub_model 20) 3 0 kings_df = Ok st)
    as [st H] by (vm_compute; eexists; reflexivity).
  destruct (single_forecast_rows (stub_model 20) 0 3 kings_df st H)
    as (mss0 & latest & Hm & Hl & Hn & Hrows).
  assert (exists r, nth_error (s_future_rows st) 2 = Some r) as [r Hr].
  { destruct (nth_error (s_future_rows st) 2) eqn:E; [eauto|].
    apply nth_error_None in E. lia. }
  exists st, r. split; [exact H|]. split; [exact Hr|].
  destruct (Hrows 2%nat r Hr) as (Hmc & Hd & Hmss & _).
  vm_compute in Hm. injection Hm as <-.
  vm_compute in Hl. injection Hl as <-.
  cbn in Hmc. unfold year, month. rewrite Hmc.
  repeat split; assumption || reflexivity.
Defined.

Lemma length_with_cumsum (rows : list Row) :
  length (Pd.with_cumsum rows) = length rows.
Proof.
  rewrite <- (with_cumsum_rows rows) at 2. now rewrite length_map.
Qed.

Lemma length_assemble (historical forecast_df : list Row) :
  length (assemble historical forecast_df)
  = (length historical + length forecast_df)%nat.
Proof.
  unfold assemble. rewrite length_with_cumsum, <- length_app.
  symmetry. apply Permutation_length, sort_values_perm.
Qed.

Lemma StronglySorted_last {A : Type} (R : A -> A -> Prop) (l : list A)
    (z x : A) :
  StronglySorted R l -> nth_error (rev l) 0 = Some z -> In x l ->
  x = z \/ R x z.
Proof.
  intros Hs Hz Hx.
  destruct (rev l) as [|z' r] eqn:E; [discriminate|].
  injection Hz as ->.
  assert (l = rev r ++ [z]) as ->
    by (rewrite <- (rev_involutive l), E; reflexivity).
  apply in_app_or in Hx as [Hx|[<-|[]]]; [right | now left].
  clear E. induction (rev r) as [|a t IH]; [destruct Hx|].
  cbn [app] in Hs. inversion Hs as [|? ? Ht Ha]; subst.
  destruct Hx as [<-|Hx]; [|now apply IH].
  rewrite Forall_app in Ha. destruct Ha as [_ Ha]. now inversion Ha.
Qed.

Lemma single_loop_short_raises (model_predict : FeatureVector -> result Q)
    (county_code : Z) (n : nat) (county_df : list DfRow) :
  (1 <= length county_df < 3)%nat ->
  single_loop model_predict (S n) county_code county_df = Raise IndexError.
Proof.
  intros Hlen. unfold single_loop.
  destruct (single_init_ok county_df) as (st0 & -> & Hw & _).
  { destruct county_df; [simpl in Hlen; lia | discriminate]. }
  cbn [bind iterate]. unfold single_step.
  destruct (s_latest_row st0) as [ly lm].
  rewrite derive_raise; [reflexivity|].
  rewrite Hw, (proj1 (init_window_lengths _)), length_map. lia.
Qed.

(** X13. In the single-county script too, when the historical rows of
    the county fall in strictly increasing calendar months, so do the
    entries of the combined series it assembles. *)
Theorem single_monotonic_calendar (le_transform : string -> result Z)
    (model_predict : FeatureVector -> result Q) (horizon : nat)
    (county : string) (df : list DfRow) (county_code : Z)
    (st : SingleState) (combined : list CRow) :
  le_transform county = Ok county_code ->
  single_script le_transform model_predict horizon county df
    = Finished (st, combined) ->
  months_strictly_increasing (map Date (county_frame df county_code)) ->
  months_strictly_increasing (map (fun cr => r_Date (c_row cr)) combined).
Proof.
  intros Hle Hs Hhist. unfold single_script in Hs. rewrite Hle in Hs.
  set (cdf := county_frame df county_code) in *.
  destruct cdf as [|r0 t0] eqn:Ecdf; [discriminate|].
  rewrite <- Ecdf in *. clear Ecdf r0 t0.
  destruct (single_loop model_predict horizon county_code cdf) as [st'|]
    eqn:Hrun; [|discriminate].
  injection Hs as <- <-.
  destruct (single_loop_rows _ _ _ _ _ Hrun)
    as (mss0 & latest & _ & Hlast & _ & Hrows).
  set (R := fun a b : Row =>
              (month_count (r_Date a) < month_count (r_Date b))%Z).
  assert (StronglySorted
            (fun a b => (month_count (Date a) < month_count (Date b))%Z) cdf)
    as Hcdf.
  { apply Sorted_StronglySorted; [intros a b c; lia|].
    apply Sorted_consecutive.
    apply (proj1 (consecutive_map Date
                    (fun a b => (month_count a < month_count b)%Z) cdf)).
    exact Hhist. }
  assert (StronglySorted R (single_historical cdf)) as Hh.
  { unfold single_historical. clear - Hcdf.
    induction Hcdf as [|x t Ht IH Hx]; cbn [map]; constructor; [exact IH|].
    apply Forall_map. eapply Forall_impl; [|exact Hx].
    intros a Ha. unfold R. cbn [r_Date].
    now rewrite !to_datetime_of_fields. }
  assert (StronglySorted R (s_future_rows st')) as Hf.
  { apply months_increasing_strongly_sorted.
    unfold months_strictly_increasing.
    apply (proj2 (consecutive_map r_Date
                    (fun a b => (month_count a < month_count b)%Z)
                    (s_future_rows st'))).
    intros i a b Ha Hb.
    apply Hrows in Ha as [Ha _]. apply Hrows in Hb as [Hb _]. lia. }
  assert (StronglySorted R (single_historical cdf ++ s_future_rows st'))
    as Hall.
  { apply StronglySorted_app; [exact Hh | exact Hf |].
    intros x y Hx Hy. unfold R.
    apply In_nth_error in Hy as [i Hi]. apply Hrows in Hi as [Hi _].
    unfold single_historical in Hx. apply in_map_iff in Hx as (r & <- & Hr).
    cbn [r_Date]. rewrite to_datetime_of_fields.
    destruct (StronglySorted_last _ _ _ _ Hcdf Hlast Hr) as [->|Hlt]; lia. }
  unfold assemble.
  rewrite <- (map_map c_row r_Date), with_cumsum_rows.
  rewrite sort_values_sorted_id.
  - now apply months_increasing_strongly_sorted.
  - eapply StronglySorted_weaken; [|exact Hall].
    intros a b Hab. cbv beta. unfold date_leb.
    apply orb_true_iff. left. now apply Z.ltb_lt.
Qed.

Lemma single_monotonic_calendar_witness :
  exists st combined,
    single_script short_le (stub_model 20) 3 "D" short_df
      = Finished (st, combined) /\
    months_strictly_increasing (map (fun cr => r_Date (c_row cr)) combined).
Proof.
  assert (exists st combined,
             single_script short_le (stub_model 20) 3 "D" short_df
             = Finished (st, combined))
    as (st & combined & H) by (vm_compute; eexists; eexists; reflexivity).
  exists st, combined. split; [exact H|].
  apply (single_monotonic_calendar short_le (stub_model 20) 3 "D" short_df 0
           st combined); [reflexivity | exact H |].
  intros i a b Ha Hb.
  do 4 (destruct i as [|i]; [vm_compute in Ha, Hb;
                             injection Ha as <-; try injection Hb as <-;
                             try discriminate; cbn; lia|]).
  destruct i; discriminate.
Defined.

(** X14. How the single-county script ends. An unknown county name and
    a county without rows both end it through [exit()]; a county with 1
    or 2 rows makes the first forecast step raise an uncaught
    [IndexError]; with at least 3 rows and a model that does not raise
    it finishes, and the combined series holds one entry per historical
    row plus one per forecast step. *)
Theorem single_script_outcomes (le_transform : string -> result Z)
    (model_predict : FeatureVector -> result Q) (horizon : nat)
    (county : string) (df : list DfRow) :
  (le_transform county = Raise ValueError ->
   single_script le_transform model_predict horizon county df = Exit) /\
  (forall code,
      le_transform county = Ok code ->
      (county_frame df code = [] ->
       single_script le_transform model_predict horizon county df = Exit) /\
      ((1 <= length (county_frame df code) < 3)%nat -> (1 <= horizon)%nat ->
       single_script le_transform model_predict horizon county df
       = Uncaught IndexError) /\
      ((3 <= length (county_frame df code))%nat ->
       (forall fv, exists pred, model_predict fv = Ok pred) ->
       exists st combined,
         single_script le_transform model_predict horizon county df
         = Finished (st, combined) /\
         length combined = (length (county_frame df code) + horizon)%nat)).
Proof.
  split; [intros H; unfold single_script; now rewrite H|].
  intros code Hle. unfold single_script. rewrite Hle.
  split; [intros ->; reflexivity|]. split.
  - intros Hlen Hh.
    destruct (county_frame df code) as [|r t] eqn:E; [simpl in Hlen; lia|].
    destruct horizon as [|n]; [lia|].
    now rewrite single_loop_short_raises.
  - intros Hlen Hm.
    destruct (single_loop_total model_predict code horizon
                (county_frame df code) Hm Hlen) as [st Hst].
    destruct (county_frame df code) as [|r t] eqn:E; [simpl in Hlen; lia|].
    rewrite Hst. eexists. eexists. split; [reflexivity|].
    rewrite length_assemble. unfold single_historical.
    rewrite length_map. f_equal.
    now apply single_loop_lengths in Hst as (_ & _ & ?).
Qed.

Lemma single_script_outcomes_witness :
  single_script short_le (stub_model 20) 3 "Pierce" short_df = Exit /\
  exists st combined,
    single_script short_le (stub_model 20) 3 "D" short_df
    = Finished (st, combined) /\
    length combined = 7%nat.
Proof.
  destruct (single_script_outcomes short_le (stub_model 20) 3 "Pierce"
              short_df) as [H1 _].
  destruct (single_script_outcomes short_le (stub_model 20) 3 "D" short_df)
    as [_ H2].
  split; [apply H1; reflexivity|].
  destruct (H2 0%Z eq_refl) as (_ & _ & H3).
  apply H3; [vm_compute; lia | intros fv; eexists; reflexivity].
Defined.

(** ** The batch loop, continued *)

Lemma filter_length_perm {A : Type} (f : A -> bool) (l l' : list A) :
  Permutation l l' -> length (filter f l) = length (filter f l').
Proof.
  induction 1 as [|x l l' _ IH|x y l|l l' l'' _ IH1 _ IH2]; cbn [filter].
  - reflexivity.
  - destruct (f x); cbn [length]; now rewrite IH.
  - destruct (f x), (f y); reflexivity.
  - now rewrite IH1.
Qed.

Lemma In_firstn {A : Type} (n : nat) (l : list A) (x : A) :
  In x (firstn n l) -> In x l.
Proof.
  revert n. induction l as [|y t IH]; intros [|n] H; cbn [firstn] in H;
    try contradiction.
  destruct H as [<-|H]; [now left | right; eapply IH; eauto].
Qed.

Lemma NoDup_firstn {A : Type} (n : nat) (l : list A) :
  NoDup l -> NoDup (firstn n l).
Proof.
  intros H. revert n. induction H as [|x l Hx _ IH]; intros [|n];
    cbn [firstn]; try constructor.
  - intros Hin. apply Hx. eapply In_firstn; eauto.
  - apply IH.
Qed.

Section BatchShape.

Variable model_predict : FeatureVector -> result Q.
Variable county : string.
Variable code : Z.
Variable max_date : Timestamp.

Lemma batch_step_ok (st : BatchState) (fv : FeatureVector) (pred : Q)
    (w : Window) :
  derive (b_window st) (b_months_since_start st + 1) code = Ok fv ->
  model_predict fv = Ok pred ->
  push (b_window st) pred = Ok w ->
  exists st',
    batch_step model_predict county code max_date st = Ok st' /\
    b_window st' = w.
Proof.
  intros Hd Hp Hw. unfold batch_step.
  rewrite Hd. cbn [bind]. rewrite Hp. cbn [bind]. rewrite Hw. cbn [bind].
  eexists. split; reflexivity.
Qed.

Lemma batch_step_full_inv (st st' : BatchState) :
  batch_step model_predict county code max_date st = Ok st' ->
  exists fv pred,
    derive (b_window st) (b_months_since_start st + 1) code = Ok fv /\
    model_predict fv = Ok pred /\
    push (b_window st) pred = Ok (b_window st') /\
    b_months_since_start st' = (b_months_since_start st + 1)%Z /\
    b_slope_history st' =
      (if (2 <? length (b_slope_history st ++ [ev_growth_slope fv]))%nat
       then Py.pop0 (b_slope_history st ++ [ev_growth_slope fv])
       else b_slope_history st ++ [ev_growth_slope fv]) /\
    b_future_rows st' =
      b_future_rows st ++
      [forecast_row
         (DateOffset_months max_date
            (Z.of_nat (length (b_future_rows st)) + 1))
         pred (b_months_since_start st + 1) (Some county)].
Proof.
  unfold batch_step. intros H.
  destruct (derive _ _ _) as [fv|] eqn:Ed; cbn [bind] in H; [|discriminate].
  destruct (model_predict fv) as [pred|] eqn:Ep; cbn [bind] in H;
    [|discriminate].
  destruct (push _ pred) as [w|] eqn:Ew; cbn [bind] in H; [|discriminate].
  injection H as <-. exists fv, pred. cbn. auto 10.
Qed.

Lemma batch_iterate_shape (n : nat) (st st' : BatchState) :
  window_bounded (b_window st) ->
  (length (b_slope_history st) <= 2)%nat ->
  iterate (batch_step model_predict county code max_date) n st = Ok st' ->
  window_bounded (b_window st') /\
  length (historical_ev (b_window st'))
    = Nat.min 6 (length (historical_ev (b_window st)) + n) /\
  length (b_future_rows st') = (length (b_future_rows st) + n)%nat /\
  length (b_slope_history st')
    = Nat.min 2 (length (b_slope_history st) + n) /\
  b_months_since_start st' = (b_months_since_start st + Z.of_nat n)%Z /\
  (Forall (fun r => is_forecast r = true) (b_future_rows st) ->
   Forall (fun r => is_forecast r = true) (b_future_rows st')).
Proof.
  revert st. induction n as [|n IH]; intros st Hb Hs H; cbn [iterate] in H.
  - injection H as <-. destruct Hb.
    repeat split; auto; lia.
  - destruct (batch_step _ _ _ _ st) as [s1|] eqn:E; cbn [bind] in H;
      [|discriminate].
    apply batch_step_full_inv in E
      as (fv & pred & _ & _ & Hp & Hm & Hsh & Hr).
    destruct (push_bounded _ _ _ Hb Hp) as [Hb1 Hl1].
    assert (length (b_slope_history s1)
            = Nat.min 2 (length (b_slope_history st) + 1)) as Hs1.
    { rewrite Hsh, length_app. cbn [length].
      destruct (Nat.ltb_spec 2 (length (b_slope_history st) + 1)) as [L|L].
      - unfold Py.pop0.
        destruct (b_slope_history st) as [|a t];
          cbn [app tl length] in *; [lia|].
        rewrite length_app. cbn [length]. lia.
      - rewrite length_app. cbn [length]. lia. }
    destruct (IH s1 Hb1 ltac:(lia) H) as (Hb' & Hl' & Hr' & Hs' & Hm' & Hf').
    split; [exact Hb'|]. rewrite Hl', Hl1, Hr', Hr, Hs', Hs1, Hm', Hm.
    rewrite length_app. cbn [length].
    repeat split; try lia.
    intros Hf. apply Hf'. rewrite Hr. apply Forall_app. split; [exact Hf|].
    constructor; [reflexivity | constructor].
Qed.

(** With a model that does not raise, the steps of the batch loop do not
    raise either once three values are buffered. *)
Lemma batch_iterate_total (n : nat) (st : BatchState) :
  (forall fv, exists pred, model_predict fv = Ok pred) ->
  window_bounded (b_window st) ->
  (3 <= length (historical_ev (b_window st)))%nat ->
  exists st',
    iterate (batch_step model_predict county code max_date) n st = Ok st'.
Proof.
  intros Hm Hb H3.
  destruct (iterate_total
              (fun s => window_bounded (b_window s) /\
                        (3 <= length (historical_ev (b_window s)))%nat)
              (batch_step model_predict county code max_date))
    with (n := n) (s := st) as (st' & Hst & _).
  - intros s [Hbs H3s].
    pose proof (derive_ok (b_window s) (b_months_since_start s + 1) code H3s)
      as Hd.
    match type of Hd with
    | _ = Ok ?fv => destruct (Hm fv) as [pred Hp]
    end.
    assert (cumulative_ev (b_window s) <> []) as Hc.
    { destruct Hbs as [_ Hc]. intros E. rewrite E in Hc. simpl in Hc. lia. }
    pose proof (push_ok (b_window s) pred Hc) as Hpush.
    destruct (batch_step_ok s _ pred _ Hd Hp Hpush) as (s' & Hs' & Hw).
    exists s'. split; [exact Hs'|]. rewrite Hw.
    destruct (push_bounded _ _ _ Hbs Hpush) as [Hb' Hl'].
    split; [exact Hb'|]. rewrite Hl'. lia.
  - split; assumption.
  - exists st'. exact Hst.
Qed.

End BatchShape.

(** X15. Every series that the batch loop computes for a county holds
    one entry per historical row of the county plus one per forecast
    step, exactly [horizon] of its entries are forecasts, and every
    entry carries the county's name. *)
Theorem batch_series_shape (model_predict : FeatureVector -> result Q)
    (horizon : nat) (df : list DfRow) (county : string) (code : Z)
    (combined : list CRow) :
  county_forecast model_predict horizon df county code = Ok (Some combined) ->
  length combined = (length (county_frame df code) + horizon)%nat /\
  length (filter is_forecast (map c_row combined)) = horizon /\
  Forall (fun cr => r_County (c_row cr) = Some county) combined.
Proof.
  intros H. pose proof (county_forecast_rows _ _ _ _ _ _ H) as [_ Hc].
  apply county_forecast_inv in H
    as (_ & mss & max_date & st & _ & Hrun & ->).
  apply batch_iterate_shape in Hrun
    as (_ & _ & Hn & _ & _ & Hf);
    [|apply init_window_bounded | cbn; lia].
  cbn [b_future_rows length] in Hn, Hf. specialize (Hf (Forall_nil _)).
  split; [|split; [|exact Hc]].
  - rewrite length_assemble, Hn. unfold batch_historical.
    now rewrite length_map.
  - unfold assemble. rewrite with_cumsum_rows.
    rewrite <- (filter_length_perm is_forecast _ _ (sort_values_perm _ _)).
    rewrite filter_app, length_app.
    assert (filter is_forecast
              (batch_historical county (county_frame df code)) = []) as ->.
    { unfold batch_historical. clear.
      induction (county_frame df code) as [|r t IH]; [reflexivity|].
      cbn. exact IH. }
    assert (filter is_forecast (b_future_rows st) = b_future_rows st) as ->.
    { clear - Hf. induction Hf as [|r t Hr _ IH]; [reflexivity|].
      cbn [filter]. now rewrite Hr, IH. }
    cbn [length]. exact Hn.
Qed.

Lemma batch_series_shape_witness :
  exists combined,
    county_forecast (stub_model 20) 3 kings_df "Kings" 0 = Ok (Some combined) /\
    length combined = 9%nat /\
    length (filter is_forecast (map c_row combined)) = 3%nat.
Proof.
  assert (exists combined,
             county_forecast (stub_model 20) 3 kings_df "Kings" 0
             = Ok (Some combined))
    as [combined H] by (vm_compute; eexists; reflexivity).
  exists combined. split; [exact H|].
  destruct (batch_series_shape (stub_model 20) 3 kings_df "Kings" 0 combined H)
    as (H1 & H2 & _).
  split; [exact H1 | exact H2].
Defined.

(** X16. Inside the batch loop, which only runs for counties with at
    least 6 rows, both buffers hold exactly 6 values before every step,
    [slope_history] keeps the last two slopes at most, and
    [months_since_start] has advanced by one per step. *)
Theorem batch_buffers_full (model_predict : FeatureVector -> result Q)
    (county : string) (code : Z) (max_date : Timestamp) (values : list Q)
    (mss : Z) (n : nat) (st : BatchState) :
  (6 <= length values)%nat ->
  iterate (batch_step model_predict county code max_date) n
    {| b_window := init_window values;
       b_months_since_start := mss;
       b_slope_history := [];
       b_future_rows := [] |} = Ok st ->
  length (historical_ev (b_window st)) = 6%nat /\
  length (cumulative_ev (b_window st)) = 6%nat /\
  length (b_slope_history st) = Nat.min 2 n /\
  b_months_since_start st = (mss + Z.of_nat n)%Z.
Proof.
  intros Hv H.
  apply batch_iterate_shape in H as ([_ Hc] & Hh & _ & Hs & Hm & _);
    [|apply init_window_bounded | cbn; lia].
  cbn [b_window b_slope_history b_months_since_start length] in *.
  rewrite (proj1 (init_window_lengths values)) in Hh.
  rewrite Hc, Hh, Hs, Hm. repeat split; lia.
Qed.

Lemma batch_buffers_full_witness :
  exists st,
    iterate (batch_step (stub_model 20) "Kings" 0 (to_datetime 2023 6 30)) 4
      {| b_window := init_window [10; 12; 11; 13; 14; 15; 16];
         b_months_since_start := 6;
         b_slope_history := [];
         b_future_rows := [] |} = Ok st /\
    length (historical_ev (b_window st)) = 6%nat /\
    length (b_slope_history st) = 2%nat.
Proof.
  assert (exists st,
             iterate (batch_step (stub_model 20) "Kings" 0
                        (to_datetime 2023 6 30)) 4
               {| b_window := init_window [10; 12; 11; 13; 14; 15; 16];
                  b_months_since_start := 6;
                  b_slope_history := [];
                  b_future_rows := [] |} = Ok st)
    as [st H] by (vm_compute; eexists; reflexivity).
  exists st. split; [exact H|].
  destruct (batch_buffers_full (stub_model 20) "Kings" 0
              (to_datetime 2023 6 30) [10; 12; 11; 13; 14; 15; 16] 6 4 st)
    as (H1 & _ & H3 & _); [cbn; lia | exact H |].
  split; [exact H1 | exact H3].
Defined.

Section BatchCopies.

Variable le_transform : string -> result Z.
Variable model_predict : FeatureVector -> result Q.
Variable horizon : nat.
Variable df : list DfRow.

Lemma county_forecast_total (county : string) (code : Z) :
  (forall fv, exists pred, model_predict fv = Ok pred) ->
  (6 <= length (county_frame df code))%nat ->
  exists combined,
    county_forecast model_predict horizon df county code = Ok (Some combined).
Proof.
  intros Hm Hl. unfold county_forecast.
  destruct (Nat.ltb_spec (length (county_frame df code)) 6); [lia|].
  assert (exists mss, Pd.max_Z (map months_since_start (county_frame df code))
                      = Some mss) as [mss ->].
  { destruct (county_frame df code); [simpl in Hl; lia|]. cbn. eauto. }
  assert (exists d, Pd.max_date (map Date (county_frame df code)) = Some d)
    as [d ->].
  { destruct (county_frame df code); [simpl in Hl; lia|]. cbn. eauto. }
  destruct (batch_iterate_total model_predict county code d horizon
              {| b_window :=
                   init_window (map EV_Total (county_frame df code));
                 b_months_since_start := mss;
                 b_slope_history := [];
                 b_future_rows := [] |} Hm) as [st Hst].
  - apply init_window_bounded.
  - cbn [b_window]. rewrite (proj1 (init_window_lengths _)), length_map. lia.
  - rewrite Hst. cbn [bind]. eexists. reflexivity.
Qed.

Lemma belongs_to_own (county : string) (code : Z) (combined : list CRow) :
  county_forecast model_predict horizon df county code = Ok (Some combined) ->
  belongs_to county combined = true.
Proof.
  intros H. apply county_forecast_rows in H as [Hne Hall].
  unfold belongs_to. destruct combined as [|cr t]; [congruence|].
  apply forallb_forall. intros x Hx.
  rewrite Forall_forall in Hall. rewrite (Hall x Hx).
  apply String.eqb_refl.
Qed.

Lemma outcomes_of_other_county (county county' : string) :
  county' <> county ->
  filter (belongs_to county)
         (county_outcomes le_transform model_predict horizon df county') = [].
Proof.
  intros N. unfold county_outcomes.
  destruct (le_transform county') as [code|]; [|reflexivity].
  destruct (county_forecast _ _ _ _ code) as [[c|]|] eqn:E;
    try reflexivity.
  cbn [filter].
  destruct (belongs_to county c) eqn:B; [|reflexivity].
  exfalso. apply N. symmetry.
  eapply county_forecast_belongs; eauto.
Qed.

Lemma outcomes_absent (county : string) (counties : list string) :
  ~ In county counties ->
  filter (belongs_to county)
    (flat_map (county_outcomes le_transform model_predict horizon df)
              counties) = [].
Proof.
  induction counties as [|c t IH]; intros H; [reflexivity|].
  cbn [flat_map]. rewrite filter_app, outcomes_of_other_county, IH.
  - reflexivity.
  - intros Hin. apply H. now right.
  - intros E. apply H. now left.
Qed.

(** X17. When neither the encoder nor the model raises, every requested
    county with at least 6 rows ends up with exactly two outcomes in
    [all_combined]: the loop body is written twice (lines 424-483 and
    485-559) and both copies append the county's series. *)
Theorem batch_appends_each_county_twice (counties : list string)
    (county : string) (code : Z) :
  NoDup counties -> In county counties ->
  le_transform county = Ok code ->
  (6 <= length (county_frame df code))%nat ->
  (forall fv, exists pred, model_predict fv = Ok pred) ->
  exists out,
    run_batch le_transform model_predict horizon df counties = Ok out /\
    count_outcomes county out = 2%nat.
Proof.
  intros Hnd Hin Hle Hl Hm. eexists. split; [apply batch_loop_outcomes|].
  cbn [app]. unfold count_outcomes.
  destruct (county_forecast_total county code Hm Hl) as [combined Hf].
  pose proof (belongs_to_own _ _ _ Hf) as Hb.
  induction Hnd as [|c t Hc Hnd IH]; [destruct Hin|].
  cbn [flat_map]. rewrite filter_app, length_app.
  destruct Hin as [->|Hin].
  - rewrite outcomes_absent by exact Hc.
    unfold county_outcomes. rewrite Hle, Hf. cbn [filter].
    rewrite Hb. reflexivity.
  - rewrite outcomes_of_other_county by (intros ->; contradiction).
    cbn [length]. now apply IH.
Qed.

End BatchCopies.

Lemma batch_appends_each_county_twice_witness :
  exists out,
    run_batch three_counties_le (stub_model 20) 3 three_counties_df
              ["A"; "B"; "C"]%string = Ok out /\
    count_outcomes "C" out = 2%nat.
Proof.
  apply (batch_appends_each_county_twice three_counties_le (stub_model 20) 3
           three_counties_df ["A"; "B"; "C"]%string "C" 2).
  - repeat constructor; cbn; intuition discriminate.
  - cbn. auto.
  - reflexivity.
  - vm_compute. lia.
  - intros fv. eexists. reflexivity.
Defined.

(** ** Selecting counties and rows *)

(** X18. The counties processed by the batch loop (line 420) are at most
    five, pairwise distinct, and all occur in the frame; when the frame
    holds at most five distinct counties, every one of them is
    processed. *)
Theorem unique_counties_spec (df : list DfRow) :
  NoDup (unique_counties df) /\
  (length (unique_counties df) <= 5)%nat /\
  (forall c, In c (unique_counties df) -> exists r, In r df /\ County r = c) /\
  ((length (Pd.unique (map County df)) <= 5)%nat ->
   forall r, In r df -> In (County r) (unique_counties df)).
Proof.
  unfold unique_counties. split; [|split; [|split]].
  - apply NoDup_firstn, unique_NoDup.
  - rewrite length_firstn. lia.
  - intros c Hc. apply In_firstn, unique_In, in_map_iff in Hc.
    destruct Hc as (r & E & Hr). now exists r.
  - intros Hl r Hr. rewrite firstn_all2 by exact Hl.
    apply unique_In, in_map. exact Hr.
Qed.

Lemma unique_counties_spec_witness :
  exists r,
    In r three_counties_df /\ County r = "B"%string /\
    In (County r) (unique_counties three_counties_df).
Proof.
  destruct (unique_counties_spec three_counties_df) as (_ & _ & H3 & H4).
  destruct (H3 "B"%string) as (r & Hr & E); [vm_compute; auto|].
  exists r. split; [exact Hr|]. split; [exact E|].
  apply H4; [vm_compute; lia | exact Hr].
Defined.

(** X19. The frame of a county (lines 301 and 426) holds exactly the
    rows of [df] that carry the county's code, each as often as in
    [df], in non-decreasing order of [numeric_date]. *)
Theorem county_frame_spec (df : list DfRow) (county_code : Z) :
  Permutation (filter (fun r => (county_encoded r =? county_code)%Z) df)
              (county_frame df county_code) /\
  Forall (fun r => county_encoded r = county_code)
         (county_frame df county_code) /\
  (forall i a b,
      nth_error (county_frame df county_code) i = Some a ->
      nth_error (county_frame df county_code) (S i) = Some b ->
      (numeric_date a <= numeric_date b)%Z).
Proof.
  unfold county_frame. split; [apply sort_values_perm|]. split.
  - eapply Permutation_Forall; [apply sort_values_perm|].
    apply Forall_forall. intros r Hr. apply filter_In in Hr as [_ Hr].
    now apply Z.eqb_eq.
  - intros i a b Ha Hb.
    pose proof (sort_values_sorted
                  (fun a b => (numeric_date a <=? numeric_date b)%Z)
                  (filter (fun r => (county_encoded r =? county_code)%Z) df))
      as Hs.
    assert (forall a b : DfRow,
               (numeric_date a <=? numeric_date b)%Z = false ->
               (numeric_date b <=? numeric_date a)%Z = true) as Htot.
    { intros x y H. apply Z.leb_gt in H. apply Z.leb_le. lia. }
    specialize (Hs Htot).
    apply Z.leb_le.
    exact (proj1 (Sorted_consecutive _ _) Hs i a b Ha Hb).
Qed.

Lemma county_frame_spec_witness :
  exists a b,
    nth_error (county_frame three_counties_df 2) 0 = Some a /\
    nth_error (county_frame three_counties_df 2) 1 = Some b /\
    (numeric_date a <= numeric_date b)%Z.
Proof.
  eexists. eexists. split; [reflexivity|]. split; [reflexivity|].
  apply (proj2 (proj2 (county_frame_spec three_counties_df 2)) 0%nat);
    reflexivity.
Defined.
